(** * Recipe extractor: a shallow embedding of Models.py,
      Recipe_Extractor_Demo.py and Recipe_Extractor_Main.py

    The program reads a text file, asks a hosted language model (through the
    [langextract] library) for a structured recipe, turns the first usable
    answer into a [Recipe] and writes it out as JSON and HTML.

    Conventions of the embedding:
    - a Python [str] is a [string], one [ascii] per code point, so the model
      covers the code points U+0000..U+00FF with Python's own character
      tables for that range;
    - a Python [float] is a value of a type that carries a [FloatModel]: no
      property below depends on floating-point arithmetic;
    - [json.loads] is a library function, taken as a [JsonParser];
    - code that can raise returns a [result]; [try]/[except Exception]
      becomes a [match] on it;
    - the logger, the service call and [print] leave [event]s in a trace,
      the file system is passed as state. *)

From Stdlib Require Import ZArith String Ascii List Bool Lia DecimalString.
From stdpp Require Import base option list strings gmap.
Import ListNotations.

Local Open Scope string_scope.
Local Open Scope list_scope.
Set Warnings "-register-all".

(* ===================================================================== *)
(** ** Python strings *)

(** [str.isspace] on the code points below 256. *)
Definition py_isspace (c : ascii) : bool :=
  let n := N_of_ascii c in
  ((9 <=? n) && (n <=? 13) || (28 <=? n) && (n <=? 32)
   || (n =? 133) || (n =? 160))%N.

(** [str.isalnum] on the code points below 256: the ASCII digits and
    letters, the Latin-1 letters, and the superscripts, ordinal indicators,
    micro sign and vulgar fractions, which Python counts as alphabetic,
    digit or numeric. *)
Definition py_isalnum (c : ascii) : bool :=
  let n := N_of_ascii c in
  ((48 <=? n) && (n <=? 57) || (65 <=? n) && (n <=? 90)
   || (97 <=? n) && (n <=? 122)
   || (n =? 170) || (n =? 178) || (n =? 179) || (n =? 181)
   || (n =? 185) || (n =? 186) || (188 <=? n) && (n <=? 190)
   || (192 <=? n) && (n <=? 214) || (216 <=? n) && (n <=? 246)
   || (248 <=? n) && (n <=? 255))%N.

(** [str.lower] on one code point below 256. *)
Definition py_lower_char (c : ascii) : ascii :=
  let n := N_of_ascii c in
  if ((65 <=? n) && (n <=? 90) || (192 <=? n) && (n <=? 214)
      || (216 <=? n) && (n <=? 222))%N
  then ascii_of_N (n + 32) else c.

Fixpoint str_map (f : ascii -> ascii) (s : string) : string :=
  match s with
  | EmptyString => EmptyString
  | String c r => String (f c) (str_map f r)
  end.

Fixpoint str_filter (p : ascii -> bool) (s : string) : string :=
  match s with
  | EmptyString => EmptyString
  | String c r => if p c then String c (str_filter p r) else str_filter p r
  end.

(** [s.lower()] *)
Definition py_lower (s : string) : string := str_map py_lower_char s.

(** [s.replace(a, b)] for one-character [a] and [b]. *)
Definition py_replace_char (a b : ascii) (s : string) : string :=
  str_map (fun c => if Ascii.eqb c a then b else c) s.

(** [s.lstrip()] *)
Fixpoint py_lstrip (s : string) : string :=
  match s with
  | EmptyString => EmptyString
  | String c r => if py_isspace c then py_lstrip r else s
  end.

(** [s.rstrip()] *)
Fixpoint py_rstrip (s : string) : string :=
  match s with
  | EmptyString => EmptyString
  | String c r =>
      match py_rstrip r with
      | EmptyString => if py_isspace c then EmptyString else String c EmptyString
      | r' => String c r'
      end
  end.

(** [s.strip()] *)
Definition py_strip (s : string) : string := py_lstrip (py_rstrip s).

(** [not s] for a string. *)
Definition str_is_empty (s : string) : bool :=
  match s with EmptyString => true | _ => false end.

(* ===================================================================== *)
(** ** Exceptions and results *)

(** The subclasses of Python's [Exception] the program can meet. The
    process-level signals that are not [Exception]s ([KeyboardInterrupt],
    [SystemExit]) are outside the model. *)
Inductive exn : Type :=
| JSONDecodeError (msg : string)
| AttributeError (type_name attr : string)
| TypeError_not_iterable (type_name : string)
| ValidationError (model : string) (fields : list string)
| OSError (kind path : string)
| OtherException (class_name msg : string).

Inductive result (A : Type) : Type :=
| Ok (a : A)
| Raise (e : exn).
Arguments Ok {A} a.
Arguments Raise {A} e.

#[global] Instance result_ret : MRet result := fun _ a => Ok a.
#[global] Instance result_bind : MBind result := fun _ _ f m =>
  match m with Ok a => f a | Raise e => Raise e end.
#[global] Instance result_fmap : FMap result := fun _ _ f m =>
  match m with Ok a => Ok (f a) | Raise e => Raise e end.

(** Runs [f] over a list, stopping at the first exception. *)
Fixpoint result_mapM {A B : Type} (f : A -> result B) (l : list A)
  : result (list B) :=
  match l with
  | [] => Ok []
  | a :: r =>
      match f a with
      | Ok b => match result_mapM f r with
                | Ok bs => Ok (b :: bs)
                | Raise e => Raise e
                end
      | Raise e => Raise e
      end
  end.

(* ===================================================================== *)
(** ** Python floats and the values [json.loads] builds *)

(** The type of Python's [float] values. *)
Class PyFloat : Type := pyfloat : Type.

(** Python's [float], with the conversions the program reaches: pydantic's
    lax coercions into a [float] field ([None] for a rejected input),
    truth value, and the text [json.dump] writes. *)
Class FloatModel {F : PyFloat} : Type := {
  float_of_int : Z -> option pyfloat;
  float_of_str : string -> option pyfloat;
  float_of_bool : bool -> option pyfloat;
  float_truthy : pyfloat -> bool;
  float_repr : pyfloat -> string
}.

Section Values.
Context {F : PyFloat} {FM : FloatModel}.

Inductive pyval : Type :=
| PNone
| PBool (b : bool)
| PInt (z : Z)
| PFloat (f : pyfloat)
| PStr (s : string)
| PList (l : list pyval)
| PDict (d : list (string * pyval)).

(** [type(v).__name__] *)
Definition py_type_name (v : pyval) : string :=
  match v with
  | PNone => "NoneType"
  | PBool _ => "bool"
  | PInt _ => "int"
  | PFloat _ => "float"
  | PStr _ => "str"
  | PList _ => "list"
  | PDict _ => "dict"
  end.

(** [bool(v)] *)
Definition py_truthy (v : pyval) : bool :=
  match v with
  | PNone => false
  | PBool b => b
  | PInt z => negb (z =? 0)%Z
  | PFloat f => float_truthy f
  | PStr s => negb (str_is_empty s)
  | PList l => match l with [] => false | _ => true end
  | PDict d => match d with [] => false | _ => true end
  end.

(** A dict keeps one binding per key; lookup takes it. *)
Fixpoint dict_lookup (k : string) (d : list (string * pyval)) : option pyval :=
  match d with
  | [] => None
  | (k', v) :: r => if String.eqb k k' then Some v else dict_lookup k r
  end.

(** [v.get(k, default)]: only a dict has the method. *)
Definition py_get (v : pyval) (k : string) (default : pyval) : result pyval :=
  match v with
  | PDict d => Ok (match dict_lookup k d with Some x => x | None => default end)
  | _ => Raise (AttributeError (py_type_name v) "get")
  end.

Fixpoint str_chars (s : string) : list pyval :=
  match s with
  | EmptyString => []
  | String c r => PStr (String c EmptyString) :: str_chars r
  end.

(** The items a [for] loop over [v] visits. *)
Definition py_iter (v : pyval) : result (list pyval) :=
  match v with
  | PList l => Ok l
  | PDict d => Ok (map (fun kv => PStr (fst kv)) d)
  | PStr s => Ok (str_chars s)
  | _ => Raise (TypeError_not_iterable (py_type_name v))
  end.

End Values.

(* ===================================================================== *)
(** ** Models.py: the two pydantic models *)

Section Models.
Context {F : PyFloat} {FM : FloatModel}.

(** [class Ingredient(BaseModel)]: [name: str], [quantity: Optional[float]]
    and [unit: Optional[str]], the last two with [default=None]. *)
Record Ingredient : Type := {
  ing_name : string;
  ing_quantity : option pyfloat;
  ing_unit : option string
}.

(** [class Recipe(BaseModel)]: seven required fields. *)
Record Recipe : Type := {
  title : string;
  description : string;
  prep_time : string;
  cook_time : string;
  servings : string;
  ingredients : list Ingredient;
  instructions : list string
}.

(** pydantic's check of a [str] field: of the values [json.loads] builds,
    only a [str] passes. *)
Definition validate_str (v : pyval) : option string :=
  match v with PStr s => Some s | _ => None end.

(** pydantic's check of a [float] field: a float passes unchanged, an int,
    a string or a bool goes through the float model's coercion, everything
    else is refused. *)
Definition validate_float (v : pyval) : option pyfloat :=
  match v with
  | PFloat f => Some f
  | PInt z => float_of_int z
  | PStr s => float_of_str s
  | PBool b => float_of_bool b
  | _ => None
  end.

(** [Optional[T]]: [None] passes as it is. *)
Definition validate_optional {A : Type} (check : pyval -> option A) (v : pyval)
  : option (option A) :=
  match v with
  | PNone => Some None
  | _ => match check v with Some a => Some (Some a) | None => None end
  end.

Fixpoint validate_all {A : Type} (check : pyval -> option A) (l : list pyval)
  : option (list A) :=
  match l with
  | [] => Some []
  | v :: r =>
      match check v, validate_all check r with
      | Some a, Some rest => Some (a :: rest)
      | _, _ => None
      end
  end.

(** [List[str]]: a list whose items all pass as [str]. *)
Definition validate_list_str (v : pyval) : option (list string) :=
  match v with PList l => validate_all validate_str l | _ => None end.

(** The name of a field whose value was refused, for the error report. *)
Definition failed {A : Type} (field : string) (o : option A) : list string :=
  match o with Some _ => [] | None => [field] end.

(** [Ingredient(name=..., quantity=..., unit=...)] *)
Definition Ingredient_init (name quantity unit_ : pyval) : result Ingredient :=
  let n := validate_str name in
  let q := validate_optional validate_float quantity in
  let u := validate_optional validate_str unit_ in
  match n, q, u with
  | Some n', Some q', Some u' =>
      Ok {| ing_name := n'; ing_quantity := q'; ing_unit := u' |}
  | _, _, _ =>
      Raise (ValidationError "Ingredient"
               (failed "name" n ++ failed "quantity" q ++ failed "unit" u))
  end.

(** [Recipe(title=..., ..., ingredients=ingredients, instructions=...)];
    [ingredients] is already a list of [Ingredient] objects. *)
Definition Recipe_init (title_ description_ prep_time_ cook_time_ servings_ : pyval)
    (ingredients_ : list Ingredient) (instructions_ : pyval) : result Recipe :=
  let t := validate_str title_ in
  let d := validate_str description_ in
  let p := validate_str prep_time_ in
  let c := validate_str cook_time_ in
  let s := validate_str servings_ in
  let i := validate_list_str instructions_ in
  match t, d, p, c, s, i with
  | Some t', Some d', Some p', Some c', Some s', Some i' =>
      Ok {| title := t'; description := d'; prep_time := p'; cook_time := c';
            servings := s'; ingredients := ingredients_; instructions := i' |}
  | _, _, _, _, _, _ =>
      Raise (ValidationError "Recipe"
               (failed "title" t ++ failed "description" d
                ++ failed "prep_time" p ++ failed "cook_time" c
                ++ failed "servings" s ++ failed "instructions" i))
  end.

End Models.

(* ===================================================================== *)
(** ** Recipe_Extractor_Demo.py: the extraction engine *)

(** [json.loads]: the parsed value, or the [JSONDecodeError] it raises. *)
Class JsonParser {F : PyFloat} : Type := {
  json_loads : string -> result pyval
}.

(** One candidate the service returns: [langextract.data.Extraction]. *)
Record Extraction : Type := {
  extraction_class : string;
  extraction_text : string
}.

(** What [lx.extract] hands back, as far as line 173 tells cases apart: a
    falsy object, an object without an [extractions] attribute, or a
    document whose [extractions] is [None] or a list. *)
Inductive lx_result : Type :=
| ResultFalsy
| ResultWithoutExtractions
| ResultDocument (extractions : option (list Extraction)).

(** The arguments of [lx.extract] that vary; [prompt_description] and
    [examples] are the same constants in every call. *)
Record lx_request : Type := {
  text_or_documents : string;
  model_id : string;
  req_api_key : string
}.

(** The external call returns or raises. *)
Inductive call_outcome : Type :=
| Returns (r : lx_result)
| Raises (e : exn).

Inductive log_level : Type := DEBUG | INFO | WARNING | ERROR.

(** The messages of the program's logger and [print] calls, one
    constructor per format string, with the values it interpolates. *)
Inductive message : Type :=
| MsgInitialized (model : string)
| MsgExtracting (length : nat)
| MsgTextTooShort
| MsgSkippingPartial
| MsgExtracted (title_ : string)
| MsgIngredientCount (n : nat)
| MsgInstructionCount (n : nat)
| MsgParseError (e : exn)
| MsgExtractionText (text : string)
| MsgNoExtractions
| MsgExtractionError (e : exn)
| MsgReading (path : string)
| MsgInputEmpty
| MsgTextLength (length : nat)
| MsgExtractingStructure
| MsgExtractFailed
| MsgSavingJson (path : string)
| MsgCreatingHtml (path : string)
| MsgParseRecipeError (e : exn)
| MsgNoApiKey.

(** What a run leaves behind besides files. *)
Inductive event : Type :=
| Log (level : log_level) (m : message)
| Call (req : lx_request)
| Print (lines : list string).

(** [class RecipeExtractor] *)
Record RecipeExtractor : Type := {
  api_key : string;
  model : string
}.

(** [RecipeExtractor.__init__] *)
Definition RecipeExtractor_init (api_key_ model_ : string)
  : RecipeExtractor * list event :=
  ({| api_key := api_key_; model := model_ |},
   [Log INFO (MsgInitialized model_)]).

Section Extractor.
Context {F : PyFloat} {FM : FloatModel} {JP : JsonParser}.

(** The body of the loop over [recipe_data.get('ingredients', [])]. *)
Definition ingredient_of_item (ing : pyval) : result Ingredient :=
  name ← py_get ing "name" (PStr "");
  quantity ← py_get ing "quantity" PNone;
  unit_ ← py_get ing "unit" PNone;
  Ingredient_init name quantity unit_.

(** The [try] block of lines 176-211 after [json.loads]: [Ok None] is the
    [continue] of a partial extraction, [Ok (Some r)] the [return recipe],
    [Raise e] whatever the [except Exception] of line 213 catches. *)
Definition recipe_of_data (recipe_data : pyval) : result (option Recipe) :=
  t ← py_get recipe_data "title" PNone;
  if negb (py_truthy t) then Ok None
  else
    ings ← py_get recipe_data "ingredients" (PList []);
    items ← py_iter ings;
    ingredients_ ← result_mapM ingredient_of_item items;
    title_ ← py_get recipe_data "title" (PStr "");
    description_ ← py_get recipe_data "description" (PStr "");
    prep_time_ ← py_get recipe_data "prep_time" (PStr "");
    cook_time_ ← py_get recipe_data "cook_time" (PStr "");
    servings_ ← py_get recipe_data "servings" (PStr "");
    instructions_ ← py_get recipe_data "instructions" (PList []);
    recipe ← Recipe_init title_ description_ prep_time_ cook_time_ servings_
                ingredients_ instructions_;
    Ok (Some recipe).

(** Lines 176-215 for one extraction of class "Recipe". *)
Definition parse_extraction (extraction : Extraction) : result (option Recipe) :=
  recipe_data ← json_loads (extraction_text extraction);
  recipe_of_data recipe_data.

(** The [for extraction in result.extractions] loop: the recipe it
    returns, if any, and the log lines written on the way. *)
Fixpoint scan_extractions (extractions : list Extraction)
  : option Recipe * list event :=
  match extractions with
  | [] => (None, [])
  | extraction :: rest =>
      if String.eqb (extraction_class extraction) "Recipe" then
        match parse_extraction extraction with
        | Ok (Some recipe) =>
            (Some recipe,
             [Log INFO (MsgExtracted (title recipe));
              Log INFO (MsgIngredientCount (length (ingredients recipe)));
              Log INFO (MsgInstructionCount (length (instructions recipe)))])
        | Ok None =>
            let '(r, evs) := scan_extractions rest in
            (r, Log DEBUG MsgSkippingPartial :: evs)
        | Raise e =>
            let '(r, evs) := scan_extractions rest in
            (r, Log ERROR (MsgParseError e)
                :: Log ERROR (MsgExtractionText (extraction_text extraction))
                :: evs)
        end
      else scan_extractions rest
  end.

(** The extractions line 173 lets the loop see. *)
Definition visible_extractions (r : lx_result) : list Extraction :=
  match r with
  | ResultDocument (Some l) => l
  | _ => []
  end.

(** [RecipeExtractor.extract_recipe]; [lx_extract] is the external
    service. *)
Definition extract_recipe (lx_extract : lx_request -> call_outcome)
    (self : RecipeExtractor) (text : string) : option Recipe * list event :=
  let started := Log INFO (MsgExtracting (String.length text)) in
  if (String.length (py_strip text) <? 100)%nat then
    (None, [started; Log WARNING MsgTextTooShort])
  else
    let req := {| text_or_documents := text; model_id := model self;
                  req_api_key := api_key self |} in
    match lx_extract req with
    | Raises e => (None, [started; Call req; Log ERROR (MsgExtractionError e)])
    | Returns r =>
        match scan_extractions (visible_extractions r) with
        | (Some recipe, evs) => (Some recipe, started :: Call req :: evs)
        | (None, evs) =>
            (None, started :: Call req :: evs ++ [Log WARNING MsgNoExtractions])
        end
    end.

End Extractor.

(* ===================================================================== *)
(** ** [recipe.model_dump()] and [json.dump(..., indent=2, ensure_ascii=False)] *)

Definition char_quote : ascii := "034"%char.
Definition char_newline : ascii := "010"%char.
Definition char_backslash : ascii := "092"%char.

Definition str_of_char (c : ascii) : string := String c EmptyString.

Definition hex_digit (n : N) : ascii :=
  if (n <? 10)%N then ascii_of_N (48 + n) else ascii_of_N (87 + n).

(** One character inside a JSON string: [json.encoder.ESCAPE_DCT]. *)
Definition json_escape_char (c : ascii) : string :=
  let n := N_of_ascii c in
  if (n =? 92)%N then "\\"
  else if (n =? 34)%N then String char_backslash (str_of_char char_quote)
  else if (n =? 8)%N then "\b"
  else if (n =? 12)%N then "\f"
  else if (n =? 10)%N then "\n"
  else if (n =? 13)%N then "\r"
  else if (n =? 9)%N then "\t"
  else if (n <? 32)%N then
    "\u00" +:+ String (hex_digit (n / 16)) (str_of_char (hex_digit (n mod 16)))
  else str_of_char c.

Fixpoint str_concat_map (f : ascii -> string) (s : string) : string :=
  match s with
  | EmptyString => EmptyString
  | String c r => f c +:+ str_concat_map f r
  end.

(** [json.encoder.py_encode_basestring] *)
Definition json_encode_str (s : string) : string :=
  String char_quote (str_concat_map json_escape_char s) +:+ str_of_char char_quote.

Fixpoint spaces (n : nat) : string :=
  match n with O => EmptyString | S k => String " " (spaces k) end.

(** The line break and indentation before an item at nesting [level]. *)
Definition newline_indent (level : nat) : string :=
  String char_newline (spaces (2 * level)).

Definition str_of_Z (z : Z) : string :=
  DecimalString.NilZero.string_of_int (Z.to_int z).

Section Dump.
Context {F : PyFloat} {FM : FloatModel}.

(** [json.dumps(v, indent=2, ensure_ascii=False)] from nesting [level]. *)
Fixpoint json_encode (level : nat) (v : pyval) : string :=
  match v with
  | PNone => "null"
  | PBool b => if b then "true" else "false"
  | PInt z => str_of_Z z
  | PFloat f => float_repr f
  | PStr s => json_encode_str s
  | PList [] => "[]"
  | PList (x :: r) =>
      "[" +:+ newline_indent (S level) +:+ json_encode (S level) x
      +:+ (fix items (l : list pyval) : string :=
             match l with
             | [] => EmptyString
             | y :: l' =>
                 "," +:+ newline_indent (S level) +:+ json_encode (S level) y
                 +:+ items l'
             end) r
      +:+ newline_indent level +:+ "]"
  | PDict [] => "{}"
  | PDict ((k, x) :: r) =>
      "{" +:+ newline_indent (S level) +:+ json_encode_str k +:+ ": "
      +:+ json_encode (S level) x
      +:+ (fix items (l : list (string * pyval)) : string :=
             match l with
             | [] => EmptyString
             | (k', y) :: l' =>
                 "," +:+ newline_indent (S level) +:+ json_encode_str k'
                 +:+ ": " +:+ json_encode (S level) y +:+ items l'
             end) r
      +:+ newline_indent level +:+ "}"
  end.

Definition json_dumps (v : pyval) : string := json_encode 0 v.

Definition py_optional {A : Type} (f : A -> pyval) (o : option A) : pyval :=
  match o with Some a => f a | None => PNone end.

(** [Ingredient.model_dump()] *)
Definition Ingredient_model_dump (i : Ingredient) : pyval :=
  PDict [("name", PStr (ing_name i));
         ("quantity", py_optional PFloat (ing_quantity i));
         ("unit", py_optional PStr (ing_unit i))].

(** [Recipe.model_dump()]: the fields in declaration order. *)
Definition Recipe_model_dump (r : Recipe) : pyval :=
  PDict [("title", PStr (title r));
         ("description", PStr (description r));
         ("prep_time", PStr (prep_time r));
         ("cook_time", PStr (cook_time r));
         ("servings", PStr (servings r));
         ("ingredients", PList (map Ingredient_model_dump (ingredients r)));
         ("instructions", PList (map PStr (instructions r)))].

End Dump.

(* ===================================================================== *)
(** ** Recipe_Extractor_Main.py: files, slug and exit code *)

(** A [pathlib.Path], by what the program reads off it: its text and its
    [stem]. *)
Record Path : Type := {
  path_str : string;
  stem : string
}.

(** [parse_recipe] declares [input_file: Path]; [main] passes a [str]. *)
Inductive path_arg : Type :=
| AsPath (p : Path)
| AsStr (s : string).

Definition path_arg_text (a : path_arg) : string :=
  match a with AsPath p => path_str p | AsStr s => s end.

(** [input_file.stem]: a [str] has no such attribute. *)
Definition path_arg_stem (a : path_arg) : result string :=
  match a with
  | AsPath p => Ok (stem p)
  | AsStr _ => Raise (AttributeError "str" "stem")
  end.

(** [output_dir / name], as text. *)
Definition path_join (dir : Path) (name : string) : string :=
  if String.eqb (path_str dir) "." then name
  else path_str dir +:+ "/" +:+ name.

(** The state a run works on: every file's text (its UTF-8 decoding), the
    directories, and the trace of events so far. *)
Record World : Type := {
  files : gmap string string;
  dirs : gset string;
  trace : list event
}.

Definition emit (evs : list event) (w : World) : World :=
  {| files := files w; dirs := dirs w; trace := trace w ++ evs |}.

(** A step of [parse_recipe]'s [try] block. *)
Definition io (A : Type) : Type := World -> result A * World.

Definition io_ret {A : Type} (a : A) : io A := fun w => (Ok a, w).

Definition io_bind {A B : Type} (m : io A) (k : A -> io B) : io B :=
  fun w => match m w with
           | (Ok a, w') => k a w'
           | (Raise e, w') => (Raise e, w')
           end.

Notation "'do' x <- m ; k" := (io_bind m (fun x => k))
  (at level 10, x name, m at level 100, k at level 200).
Notation "m ;; k" := (io_bind m (fun _ => k))
  (at level 100, k at level 200, right associativity).

Definition io_log (level : log_level) (m : message) : io unit :=
  fun w => (Ok tt, emit [Log level m] w).

Definition io_lift {A : Type} (r : result A) : io A := fun w => (r, w).

(** [open(path, 'r', encoding='utf-8').read()]. The text handed over is
    the stored one. Python's text mode also turns each CR LF and each
    lone CR into LF while reading, which is left out: the text read and
    the stored text are the same for a stored text without carriage
    return ([no_carriage_return] below). *)
Definition read_text (path : string) : io string :=
  fun w => match files w !! path with
           | Some text => (Ok text, w)
           | None => (Raise (OSError "FileNotFoundError" path), w)
           end.

(** [path.mkdir(parents=True, exist_ok=True)]: it raises when a file has
    the path's name and otherwise leaves the path a directory. Of
    [parents=True] only the directory itself is recorded: the missing
    directories above a nested path, which Python makes as well, and the
    error it raises when one of them is a file, are left out, as are the
    errors that depend on the rights of the user. *)
Definition mkdir (path : string) : io unit :=
  fun w => match files w !! path with
           | Some _ => (Raise (OSError "FileExistsError" path), w)
           | None => (Ok tt, {| files := files w; dirs := {[path]} ∪ dirs w;
                                trace := trace w |})
           end.

(** [open(path, 'w', encoding='utf-8')] followed by one write of [text].
    The one error recorded is the path being a directory; the others
    [open] can raise (a name longer than the file system allows, a
    missing right) are left out. *)
Definition write_text (path text : string) : io unit :=
  fun w => if decide (path ∈ dirs w)
           then (Raise (OSError "IsADirectoryError" path), w)
           else (Ok tt, {| files := <[path := text]> (files w); dirs := dirs w;
                           trace := trace w |}).

(** The characters line 68 keeps. *)
Definition slug_keeps (c : ascii) : bool :=
  py_isalnum c || Ascii.eqb c " " || Ascii.eqb c "-" || Ascii.eqb c "_".

(** Lines 68-69: the file name made from [recipe.title]. *)
Definition safe_title (title_ : string) : string :=
  py_lower (py_replace_char " " "_" (py_rstrip (str_filter slug_keeps title_))).

(** The slug as the specification words it: strip the characters that are
    not kept, turn spaces into underscores, lowercase. *)
Definition spec_slug (title_ : string) : string :=
  py_lower (py_replace_char " " "_" (str_filter slug_keeps title_)).

(** Lines 68-71. *)
Definition output_stem (title_ : string) (input_file : path_arg) : result string :=
  let s := safe_title title_ in
  if str_is_empty s then path_arg_stem input_file else Ok s.

(** The file name as the amended wording of the specification gives it,
    read step by step on the list of the title's characters, with the
    classes of characters written out by code point. *)
Definition code_between (lo hi : nat) (c : ascii) : bool :=
  (lo <=? nat_of_ascii c)%nat && (nat_of_ascii c <=? hi)%nat.

(** Alphanumeric, below U+0100: the digits, the letters, and the signs
    Unicode counts as letters or numbers. *)
Definition is_alphanumeric (c : ascii) : bool :=
  existsb (fun r => code_between (fst r) (snd r) c)
    [(48, 57); (65, 90); (97, 122); (170, 170); (178, 179); (181, 181);
     (185, 186); (188, 190); (192, 214); (216, 246); (248, 255)]%nat.

(** Alphanumeric, space, hyphen or underscore. *)
Definition is_kept (c : ascii) : bool :=
  is_alphanumeric c || existsb (Ascii.eqb c) [" "; "-"; "_"]%char.

Fixpoint drop_leading_spaces (l : list ascii) : list ascii :=
  match l with
  | c :: r => if Ascii.eqb c " " then drop_leading_spaces r else l
  | [] => []
  end.

(** Removing the spaces left at the end. *)
Definition drop_trailing_spaces (l : list ascii) : list ascii :=
  rev (drop_leading_spaces (rev l)).

Definition space_to_underscore (c : ascii) : ascii :=
  if Ascii.eqb c " " then "_"%char else c.

(** The capital letters below U+0100; the small letter of each is 32
    code points further. *)
Definition is_capital (c : ascii) : bool :=
  existsb (fun r => code_between (fst r) (snd r) c)
    [(65, 90); (192, 214); (216, 222)]%nat.

Definition to_small (c : ascii) : ascii :=
  if is_capital c then ascii_of_nat (nat_of_ascii c + 32) else c.

Definition amended_slug (title_ : string) : string :=
  string_of_list_ascii
    (map to_small
       (map space_to_underscore
          (drop_trailing_spaces
             (List.filter is_kept (list_ascii_of_string title_))))).

(** The number of spaces at the end of a title once the characters that
    are not kept are removed. *)
Definition trailing_spaces (title_ : string) : nat :=
  let kept := List.filter is_kept (list_ascii_of_string title_) in
  length kept - length (drop_trailing_spaces kept).

Definition str_of_nat (n : nat) : string := str_of_Z (Z.of_nat n).

Section Main.
Context {F : PyFloat} {FM : FloatModel} {JP : JsonParser}.

(** [generate_html_visualization(recipe, original_text)]: the page is a
    fixed template filled with the recipe's fields and the text; it is a
    function of the two and raises nothing. *)
Variable generate_html_visualization : Recipe -> string -> string.

(** The external service behind [lx.extract]. *)
Variable lx_extract : lx_request -> call_outcome.

(** The lines [parse_recipe] prints after a successful run. *)
Definition summary (recipe : Recipe) (json_file html_file : string) : list string :=
  [title recipe; prep_time recipe; cook_time recipe; servings recipe;
   str_of_nat (length (ingredients recipe));
   str_of_nat (length (instructions recipe)); json_file; html_file].

(** Lines 64-100 of [parse_recipe]: what follows a successful
    extraction. *)
Definition save_outputs (recipe : Recipe) (recipe_text : string)
    (input_file : path_arg) (output_dir : Path) : io bool :=
  mkdir (path_str output_dir) ;;
  do name <- io_lift (output_stem (title recipe) input_file) ;
  let json_file := path_join output_dir (name +:+ ".json") in
  io_log INFO (MsgSavingJson json_file) ;;
  write_text json_file (json_dumps (Recipe_model_dump recipe)) ;;
  let html_file := path_join output_dir (name +:+ ".html") in
  io_log INFO (MsgCreatingHtml html_file) ;;
  write_text html_file (generate_html_visualization recipe recipe_text) ;;
  (fun w => (Ok tt, emit [Print (summary recipe json_file html_file)] w)) ;;
  io_ret true.

(** The [try] block of [parse_recipe]; [Ok b] is [return b]. *)
Definition parse_recipe_try (input_file : path_arg) (output_dir : Path)
    (api_key_ model_ : string) : io bool :=
  io_log INFO (MsgReading (path_arg_text input_file)) ;;
  do recipe_text <- read_text (path_arg_text input_file) ;
  if str_is_empty (py_strip recipe_text) then
    io_log ERROR MsgInputEmpty ;; io_ret false
  else
    io_log INFO (MsgTextLength (String.length recipe_text)) ;;
    let '(extractor, evs0) := RecipeExtractor_init api_key_ model_ in
    (fun w => (Ok tt, emit evs0 w)) ;;
    io_log INFO MsgExtractingStructure ;;
    let '(found, evs) := extract_recipe lx_extract extractor recipe_text in
    (fun w => (Ok tt, emit evs w)) ;;
    match found with
    | None => io_log ERROR MsgExtractFailed ;; io_ret false
    | Some recipe => save_outputs recipe recipe_text input_file output_dir
    end.

(** [parse_recipe]: [except Exception] logs and returns [False]. *)
Definition parse_recipe (input_file : path_arg) (output_dir : Path)
    (api_key_ model_ : string) (w : World) : bool * World :=
  match parse_recipe_try input_file output_dir api_key_ model_ w with
  | (Ok b, w') => (b, w')
  | (Raise e, w') => (false, emit [Log ERROR (MsgParseRecipeError e)] w')
  end.

(** [main], with the value of [os.getenv("LANGEXTRACT_API_KEY")]; the
    result is the code handed to [sys.exit]. *)
Definition main (env_api_key : option string) (w : World) : Z * World :=
  match env_api_key with
  | Some (String c k) =>
      let '(success, w') :=
        parse_recipe (AsStr "recipe.txt")
          {| path_str := "output"; stem := "output" |}
          (String c k) "gemini-2.5-flash" w in
      ((if success then 0 else 1)%Z, w')
  | _ => (1%Z, emit [Log ERROR MsgNoApiKey] w)
  end.

End Main.

(* ===================================================================== *)
(** ** A float model and a JSON reader to run the program on examples *)

(** Decimal fractions [mantissa / 10^places], kept with no trailing zero
    in the fraction. They stand for the binary floats of the short
    literals used in the examples; every theorem below is stated for an
    arbitrary float model. *)
Record decimal_float : Type := {
  df_mantissa : Z;
  df_places : nat
}.

Definition is_digit (c : ascii) : bool :=
  let n := N_of_ascii c in ((48 <=? n) && (n <=? 57))%N.

Fixpoint take_digits (s : string) : string * string :=
  match s with
  | String c r =>
      if is_digit c then let '(ds, rest) := take_digits r in (String c ds, rest)
      else (EmptyString, s)
  | EmptyString => (EmptyString, EmptyString)
  end.

Fixpoint digits_value (acc : Z) (s : string) : Z :=
  match s with
  | EmptyString => acc
  | String c r => digits_value (10 * acc + (Z.of_N (N_of_ascii c) - 48)) r
  end.

(** Drops the zeros a fraction ends with. *)
Fixpoint trim_zeros (s : string) : string :=
  match s with
  | EmptyString => EmptyString
  | String c r =>
      match trim_zeros r with
      | EmptyString => if Ascii.eqb c "0" then EmptyString else String c EmptyString
      | r' => String c r'
      end
  end.

(** A number literal [-?digits(.digits)?] at the head of [s]: an int, or a
    decimal float when it has a fraction. *)
Definition read_number (s : string) : option ((Z + decimal_float) * string) :=
  let '(neg, s1) := match s with
                    | String "-" r => (true, r)
                    | _ => (false, s)
                    end in
  let '(int_part, s2) := take_digits s1 in
  if str_is_empty int_part then None
  else
    let sign := fun z : Z => if neg then (- z)%Z else z in
    match s2 with
    | String "." r =>
        let '(frac, s3) := take_digits r in
        if str_is_empty frac then None
        else
          let frac' := trim_zeros frac in
          Some (inr {| df_mantissa := sign (digits_value 0 (int_part +:+ frac'));
                       df_places := String.length frac' |}, s3)
    | _ => Some (inl (sign (digits_value 0 int_part)), s2)
    end.

Definition decimal_of_str (s : string) : option decimal_float :=
  match read_number s with
  | Some (inr f, EmptyString) => Some f
  | Some (inl z, EmptyString) => Some {| df_mantissa := z; df_places := 0 |}
  | _ => None
  end.

Fixpoint str_take (n : nat) (s : string) : string :=
  match n, s with
  | S k, String c r => String c (str_take k r)
  | _, _ => EmptyString
  end.

Fixpoint str_drop (n : nat) (s : string) : string :=
  match n, s with
  | S k, String _ r => str_drop k r
  | _, _ => s
  end.

Fixpoint zeros (n : nat) : string :=
  match n with O => EmptyString | S k => String "0" (zeros k) end.

Definition decimal_repr (f : decimal_float) : string :=
  let digits := str_of_Z (Z.abs (df_mantissa f)) in
  let padded := zeros (S (df_places f) - String.length digits) +:+ digits in
  let cut := String.length padded - df_places f in
  (if (df_mantissa f <? 0)%Z then "-" else "")
  +:+ str_take cut padded +:+ "."
  +:+ (if Nat.eqb (df_places f) 0 then "0" else str_drop cut padded).

Definition decimal_type : PyFloat := decimal_float.

#[global] Instance decimal_floats : @FloatModel decimal_type := {|
  float_of_int := fun z => Some {| df_mantissa := z; df_places := 0 |};
  float_of_str := decimal_of_str;
  float_of_bool := fun _ => None;
  float_truthy := fun f => negb (df_mantissa f =? 0)%Z;
  float_repr := decimal_repr
|}.

Definition is_json_space (c : ascii) : bool :=
  let n := N_of_ascii c in ((n =? 32) || (n =? 9) || (n =? 10) || (n =? 13))%N.

Fixpoint skip_ws (s : string) : string :=
  match s with
  | String c r => if is_json_space c then skip_ws r else s
  | EmptyString => EmptyString
  end.

(** [s] without the prefix [p], when it starts with it. *)
Fixpoint drop_prefix (p s : string) : option string :=
  match p, s with
  | EmptyString, _ => Some s
  | String a p', String b s' => if Ascii.eqb a b then drop_prefix p' s' else None
  | _, _ => None
  end.

(** The characters of a JSON string after its opening quote, with the
    two-character escapes decoded, and what follows the closing quote. *)
Fixpoint read_string (s : string) : option (string * string) :=
  match s with
  | EmptyString => None
  | String c r =>
      if Ascii.eqb c char_quote then Some (EmptyString, r)
      else if Ascii.eqb c char_backslash then
        match r with
        | String e r' =>
            let decoded :=
              if Ascii.eqb e char_quote then Some char_quote
              else if Ascii.eqb e char_backslash then Some char_backslash
              else if Ascii.eqb e "/" then Some "/"%char
              else if Ascii.eqb e "n" then Some char_newline
              else if Ascii.eqb e "t" then Some "009"%char
              else if Ascii.eqb e "r" then Some "013"%char
              else if Ascii.eqb e "b" then Some "008"%char
              else if Ascii.eqb e "f" then Some "012"%char
              else None in
            match decoded, read_string r' with
            | Some d, Some (body, rest) => Some (String d body, rest)
            | _, _ => None
            end
        | EmptyString => None
        end
      else if (N_of_ascii c <? 32)%N then None
      else match read_string r with
           | Some (body, rest) => Some (String c body, rest)
           | None => None
           end
  end.

(** [d[k] = v]: a key that is there keeps its place. *)
Fixpoint dict_set (k : string) (v : @pyval decimal_type)
    (d : list (string * @pyval decimal_type)) : list (string * pyval) :=
  match d with
  | [] => [(k, v)]
  | (k', v') :: r =>
      if String.eqb k k' then (k, v) :: r else (k', v') :: dict_set k v r
  end.

(** A recursive-descent reader of JSON text; [fuel] bounds the nesting. *)
Fixpoint read_value (fuel : nat) (s : string) : option (pyval * string) :=
  match fuel with
  | O => None
  | S n =>
      let s := skip_ws s in
      match s with
      | String "[" r =>
          match skip_ws r with
          | String "]" r' => Some (PList [], r')
          | _ => match read_items n r with
                 | Some (l, rest) => Some (PList l, rest)
                 | None => None
                 end
          end
      | String "{" r =>
          match skip_ws r with
          | String "}" r' => Some (PDict [], r')
          | _ => match read_members n r with
                 | Some (d, rest) =>
                     Some (PDict (fold_left (fun acc kv => dict_set (fst kv) (snd kv) acc)
                                    d []), rest)
                 | None => None
                 end
          end
      | String c r =>
          if Ascii.eqb c char_quote then
            match read_string r with
            | Some (body, rest) => Some (PStr body, rest)
            | None => None
            end
          else
            match drop_prefix "null" s, drop_prefix "true" s, drop_prefix "false" s with
            | Some rest, _, _ => Some (PNone, rest)
            | _, Some rest, _ => Some (PBool true, rest)
            | _, _, Some rest => Some (PBool false, rest)
            | _, _, _ =>
                match read_number s with
                | Some (inl z, rest) => Some (PInt z, rest)
                | Some (inr f, rest) => Some (PFloat f, rest)
                | None => None
                end
            end
      | EmptyString => None
      end
  end
with read_items (fuel : nat) (s : string) : option (list pyval * string) :=
  match fuel with
  | O => None
  | S n =>
      match read_value n s with
      | Some (v, rest) =>
          match skip_ws rest with
          | String "," r =>
              match read_items n r with
              | Some (l, rest') => Some (v :: l, rest')
              | None => None
              end
          | String "]" r => Some ([v], r)
          | _ => None
          end
      | None => None
      end
  end
with read_members (fuel : nat) (s : string)
  : option (list (string * pyval) * string) :=
  match fuel with
  | O => None
  | S n =>
      match skip_ws s with
      | String c r =>
          if Ascii.eqb c char_quote then
            match read_string r with
            | Some (k, rest) =>
                match skip_ws rest with
                | String ":" r1 =>
                    match read_value n r1 with
                    | Some (v, rest1) =>
                        match skip_ws rest1 with
                        | String "," r2 =>
                            match read_members n r2 with
                            | Some (d, rest2) => Some ((k, v) :: d, rest2)
                            | None => None
                            end
                        | String "}" r2 => Some ([(k, v)], r2)
                        | _ => None
                        end
                    | None => None
                    end
                | _ => None
                end
            | None => None
            end
          else None
      | EmptyString => None
      end
  end.

(** The reader as a [json.loads]: the whole text must be one value. *)
Definition read_json (s : string) : result pyval :=
  match read_value (S (String.length s)) s with
  | Some (v, rest) =>
      if str_is_empty (skip_ws rest) then Ok v
      else Raise (JSONDecodeError "Extra data")
  | None => Raise (JSONDecodeError "Expecting value")
  end.

#[global] Instance reader : @JsonParser decimal_type := {|
  json_loads := read_json
|}.

(** JSON text written with ['] for the double quote. *)
Definition json_text (s : string) : string :=
  py_replace_char "'" char_quote s.

(* ===================================================================== *)
(** ** Vocabulary of the properties *)

(** The request [extract_recipe] sends for [text]. *)
Definition request_of (self : RecipeExtractor) (text : string) : lx_request :=
  {| text_or_documents := text; model_id := model self;
     req_api_key := api_key self |}.

(** The requests a trace records. *)
Definition calls_of (evs : list event) : list lx_request :=
  flat_map (fun ev => match ev with Call req => [req] | _ => [] end) evs.

(** A service that answers every request with the same extractions. *)
Definition service_returning (l : list Extraction) : lx_request -> call_outcome :=
  fun _ => Returns (ResultDocument (Some l)).

(** A service whose call raises [e]. *)
Definition service_raising (e : exn) : lx_request -> call_outcome :=
  fun _ => Raises e.

Section Vocabulary.
Context {F : PyFloat} {FM : FloatModel} {JP : JsonParser}.

(** The loop passes over [e]: another class, a partial object, or an
    exception on the way to a [Recipe]. *)
Definition skipped (e : Extraction) : Prop :=
  extraction_class e <> "Recipe"
  \/ parse_extraction e = Ok None
  \/ exists err, parse_extraction e = Raise err.

(** "Its title field is non-empty", read off the parsed payload. *)
Definition has_title (v : pyval) : bool :=
  match v with
  | PDict d => match dict_lookup "title" d with
               | Some t => py_truthy t
               | None => false
               end
  | _ => false
  end.

(** The three conditions of the specification: class "Recipe", a payload
    that parses as JSON, a non-empty title. *)
Definition spec_candidate (e : Extraction) : bool :=
  String.eqb (extraction_class e) "Recipe"
  && match json_loads (extraction_text e) with
     | Ok v => has_title v
     | Raise _ => false
     end.

(** The extraction the specification's words pick: the first candidate. *)
Definition spec_choice (l : list Extraction) : option Extraction :=
  find spec_candidate l.

(** The value a [.get(key, default)] reads from a dict. *)
Definition field (key : string) (default : pyval) (d : list (string * pyval)) : pyval :=
  match dict_lookup key d with Some v => v | None => default end.

(** A JSON number [v] stands for the float [q]: a float is itself, an int
    the float it converts to. *)
Definition json_number (v : pyval) (q : pyfloat) : Prop :=
  v = PFloat q \/ exists z, v = PInt z /\ float_of_int z = Some q.

(** The JSON object [item] holds the three values of ingredient [i]. *)
Definition holds_ingredient (item : pyval) (i : Ingredient) : Prop :=
  exists d q u,
    item = PDict d
    /\ dict_lookup "name" d = Some (PStr (ing_name i))
    /\ (exists v, dict_lookup "quantity" d = Some v /\ json_number v q)
    /\ ing_quantity i = Some q
    /\ dict_lookup "unit" d = Some (PStr u)
    /\ ing_unit i = Some u.

(** The JSON object [d] has every field of the two models populated, with
    the values of [r]. *)
Definition holds_recipe (d : list (string * pyval)) (r : Recipe) : Prop :=
  title r <> ""
  /\ dict_lookup "title" d = Some (PStr (title r))
  /\ dict_lookup "description" d = Some (PStr (description r))
  /\ dict_lookup "prep_time" d = Some (PStr (prep_time r))
  /\ dict_lookup "cook_time" d = Some (PStr (cook_time r))
  /\ dict_lookup "servings" d = Some (PStr (servings r))
  /\ (exists items, dict_lookup "ingredients" d = Some (PList items)
                    /\ Forall2 holds_ingredient items (ingredients r))
  /\ dict_lookup "instructions" d = Some (PList (map PStr (instructions r))).

End Vocabulary.

(** A recipe text of more than a hundred characters. *)
Definition sample_text : string :=
  "Apple Pie. Prep Time: 20 minutes. Cook Time: 45 minutes. Serves 8. Ingredients: 2 cups flour, 1 tsp salt, 6 apples. Instructions: Mix the dough. Slice the apples. Bake.".

Definition sample_extractor : RecipeExtractor :=
  {| api_key := "key"; model := "gemini-2.5-flash" |}.

Definition recipe_extraction (payload : string) : Extraction :=
  {| extraction_class := "Recipe"; extraction_text := json_text payload |}.

(** A payload with every field populated. *)
Definition complete_payload : string :=
  "{'title': 'Apple Pie', 'description': 'A classic.', 'prep_time': '20 minutes', 'cook_time': '45 minutes', 'servings': '8', 'ingredients': [{'name': 'flour', 'quantity': 2.25, 'unit': 'cups'}, {'name': 'salt', 'quantity': 1.0, 'unit': 'tsp'}], 'instructions': ['Mix the dough.', 'Bake.']}".

Definition complete_recipe : @Recipe decimal_type :=
  {| title := "Apple Pie"; description := "A classic.";
     prep_time := "20 minutes"; cook_time := "45 minutes"; servings := "8";
     ingredients :=
       [{| ing_name := "flour";
           ing_quantity := Some {| df_mantissa := 225; df_places := 2 |};
           ing_unit := Some "cups" |};
        {| ing_name := "salt";
           ing_quantity := Some {| df_mantissa := 1; df_places := 0 |};
           ing_unit := Some "tsp" |}];
     instructions := ["Mix the dough."; "Bake."] |}.

(** A later chunk's partial object: no title. *)
Definition partial_payload : string :=
  "{'instructions': ['Let it cool.']}".

(** A titled object whose ingredients are a number. *)
Definition untyped_payload : string :=
  "{'title': 'Soup', 'ingredients': 5}".

Definition partial_then_complete : list Extraction :=
  [recipe_extraction partial_payload; recipe_extraction complete_payload].

Definition untyped_then_complete : list Extraction :=
  [recipe_extraction untyped_payload; recipe_extraction complete_payload].

(** A payload with a title and nothing else. *)
Definition title_only : list Extraction :=
  [recipe_extraction "{'title': 'Toast'}"].

Definition toast : @Recipe decimal_type :=
  {| title := "Toast"; description := ""; prep_time := ""; cook_time := "";
     servings := ""; ingredients := []; instructions := [] |}.

(** The payload of a recipe whose one ingredient has a null name and
    neither quantity nor unit. *)
Definition unnamed_ingredient_payload : string :=
  "{'title': 'Soup', 'ingredients': [{'name': null}]}".

Fixpoint underscores (n : nat) : string :=
  match n with O => EmptyString | S k => String "_" (underscores k) end.

(** A stand-in for the page template. *)
Definition sample_page (recipe : @Recipe decimal_type) (text : string) : string :=
  "<h1>" +:+ title recipe +:+ "</h1><pre>" +:+ text +:+ "</pre>".

(** A file system that holds the input file and nothing else. *)
Definition sample_world : World :=
  {| files := {["recipe.txt" := sample_text]}; dirs := ∅; trace := [] |}.

Definition sample_service : lx_request -> call_outcome :=
  service_returning [recipe_extraction complete_payload].

(** [parse_recipe] on the sample input, with a [Path] as declared. *)
Definition sample_run : World -> bool * World :=
  parse_recipe sample_page sample_service
    (AsPath {| path_str := "recipe.txt"; stem := "recipe" |})
    {| path_str := "output"; stem := "output" |} "key" "gemini-2.5-flash".

(* --------------------------------------------------------------------- *)
(** Further vocabulary and samples *)

(** The test of line 175. *)
Definition is_recipe_class (e : Extraction) : bool :=
  String.eqb (extraction_class e) "Recipe".

(** The keys [recipe_of_data] reads from a payload, and those
    [ingredient_of_item] reads from an item. *)
Definition recipe_keys : list string :=
  ["title"; "description"; "prep_time"; "cook_time"; "servings";
   "ingredients"; "instructions"].

Definition ingredient_keys : list string := ["name"; "quantity"; "unit"].

(** The keys the constructors check, the title apart. *)
Definition checked_keys : list string :=
  ["description"; "prep_time"; "cook_time"; "servings"; "ingredients";
   "instructions"].

Fixpoint str_forall (p : ascii -> bool) (s : string) : bool :=
  match s with
  | EmptyString => true
  | String c r => p c && str_forall p r
  end.

(** A character of a finished file name: alphanumeric, hyphen or
    underscore, and its own lowercase. *)
Definition slug_char (c : ascii) : bool :=
  (py_isalnum c || Ascii.eqb c "-" || Ascii.eqb c "_")
  && Ascii.eqb (py_lower_char c) c.

(** A text without carriage return: one that [open] in text mode hands
    over exactly as it is stored. *)
Definition no_carriage_return (s : string) : bool :=
  str_forall (fun c => negb (Ascii.eqb c "013")) s.

(** A directory above [path]. *)
Definition is_above (d path : string) : Prop :=
  exists rest, path = d +:+ "/" +:+ rest.

Section MoreVocabulary.
Context {F : PyFloat}.

(** Two JSON objects with the same values under [keys]. *)
Definition same_on (keys : list string) (d d' : list (string * pyval)) : Prop :=
  forall k, In k keys -> dict_lookup k d = dict_lookup k d'.

(** The key is not in the object, or holds [null]. *)
Definition absent_or_null (key : string) (d : list (string * pyval)) : Prop :=
  dict_lookup key d = None \/ dict_lookup key d = Some PNone.

End MoreVocabulary.

(** A recipe whose title leaves no character for a file name. *)
Definition punctuation_recipe : @Recipe decimal_type :=
  {| title := "!!!"; description := ""; prep_time := ""; cook_time := "";
     servings := ""; ingredients := []; instructions := [] |}.


(** The sample file system with a file named like the output directory. *)
Definition world_with_output_file : World :=
  {| files := <["output" := "not a directory"]> {["recipe.txt" := sample_text]};
     dirs := ∅; trace := [] |}.


(* ===================================================================== *)
(** ** The extraction loop *)

Section ExtractorProofs.
Context {F : PyFloat} {FM : FloatModel} {JP : JsonParser}.

Lemma scan_extractions_skip (e : Extraction) (rest : list Extraction) :
  skipped e ->
  fst (scan_extractions (e :: rest)) = fst (scan_extractions rest).
Proof.
  intros Hskip. simpl.
  destruct (String.eqb (extraction_class e) "Recipe") eqn:Hclass; [|reflexivity].
  destruct Hskip as [Hne | [Hpartial | [err Herr]]].
  - apply String.eqb_eq in Hclass. contradiction.
  - rewrite Hpartial. destruct (scan_extractions rest). reflexivity.
  - rewrite Herr. destruct (scan_extractions rest). reflexivity.
Qed.

Lemma scan_extractions_take (e : Extraction) (rest : list Extraction) (r : Recipe) :
  extraction_class e = "Recipe" ->
  parse_extraction e = Ok (Some r) ->
  fst (scan_extractions (e :: rest)) = Some r.
Proof.
  intros Hclass Hparse. simpl.
  apply String.eqb_eq in Hclass. rewrite Hclass, Hparse. reflexivity.
Qed.

Lemma scan_extractions_first (pre : list Extraction) (e : Extraction)
    (post : list Extraction) (r : Recipe) :
  Forall skipped pre ->
  extraction_class e = "Recipe" ->
  parse_extraction e = Ok (Some r) ->
  fst (scan_extractions (pre ++ e :: post)) = Some r.
Proof.
  intros Hpre Hclass Hparse.
  induction Hpre as [|x pre Hx _ IH]; simpl app.
  - apply scan_extractions_take; assumption.
  - rewrite scan_extractions_skip by assumption. exact IH.
Qed.

Lemma scan_extractions_some (l : list Extraction) (r : Recipe) :
  fst (scan_extractions l) = Some r ->
  exists pre e post,
    l = pre ++ e :: post /\ Forall skipped pre
    /\ extraction_class e = "Recipe" /\ parse_extraction e = Ok (Some r).
Proof.
  induction l as [|x l IH]; intros Hscan; [discriminate|].
  assert (Hnext : fst (scan_extractions l) = Some r -> skipped x ->
            exists pre e post,
              x :: l = pre ++ e :: post /\ Forall skipped pre
              /\ extraction_class e = "Recipe"
              /\ parse_extraction e = Ok (Some r)).
  { intros Hl Hx. destruct (IH Hl) as (pre & e & post & -> & Hpre & Hc & Hp).
    exists (x :: pre), e, post. repeat split; auto. }
  simpl in Hscan.
  destruct (String.eqb (extraction_class x) "Recipe") eqn:Hclass.
  - destruct (parse_extraction x) as [[r'|]|err] eqn:Hparse.
    + simpl in Hscan. injection Hscan as ->.
      exists [], x, l. apply String.eqb_eq in Hclass. repeat split; auto.
    + destruct (scan_extractions l) as [found evs] eqn:Hl. simpl in Hscan.
      apply Hnext; [exact Hscan | right; left; exact Hparse].
    + destruct (scan_extractions l) as [found evs] eqn:Hl. simpl in Hscan.
      apply Hnext; [exact Hscan | right; right; exists err; exact Hparse].
  - apply String.eqb_neq in Hclass. apply Hnext; [exact Hscan | left; exact Hclass].
Qed.

Lemma scan_extractions_no_calls (l : list Extraction) :
  calls_of (snd (scan_extractions l)) = [].
Proof.
  induction l as [|x l IH]; [reflexivity|]. simpl.
  destruct (String.eqb (extraction_class x) "Recipe"); [|exact IH].
  destruct (parse_extraction x) as [[r|]|err]; [reflexivity| |];
    destruct (scan_extractions l); exact IH.
Qed.

Lemma extract_recipe_returns (lx : lx_request -> call_outcome)
    (self : RecipeExtractor) (text : string) (res : lx_result) :
  100 <= String.length (py_strip text) ->
  lx (request_of self text) = Returns res ->
  fst (extract_recipe lx self text)
  = fst (scan_extractions (visible_extractions res)).
Proof.
  intros Hlen Hcall. unfold extract_recipe.
  apply Nat.ltb_ge in Hlen. rewrite Hlen.
  fold (request_of self text). rewrite Hcall.
  destruct (scan_extractions (visible_extractions res)) as [[r|] evs]; reflexivity.
Qed.

Lemma extract_recipe_some (lx : lx_request -> call_outcome)
    (self : RecipeExtractor) (text : string) (r : Recipe) :
  fst (extract_recipe lx self text) = Some r ->
  100 <= String.length (py_strip text)
  /\ exists res, lx (request_of self text) = Returns res
                 /\ fst (scan_extractions (visible_extractions res)) = Some r.
Proof.
  unfold extract_recipe. fold (request_of self text).
  destruct (String.length (py_strip text) <? 100)%nat eqn:Hlen; [discriminate|].
  apply Nat.ltb_ge in Hlen.
  destruct (lx (request_of self text)) as [res|e] eqn:Hcall; [|discriminate].
  intros Hfound. split; [exact Hlen|]. exists res. split; [reflexivity|].
  destruct (scan_extractions (visible_extractions res)) as [[r'|] evs];
    simpl in *; [exact Hfound | discriminate].
Qed.

End ExtractorProofs.

(* ===================================================================== *)
(** ** From a parsed payload to a [Recipe] *)

Section BuildProofs.
Context {F : PyFloat} {FM : FloatModel} {JP : JsonParser}.

(** What it takes for a parsed payload to become a [Recipe], and what the
    [Recipe] then holds. *)
Lemma recipe_of_data_some (v : pyval) (r : Recipe) :
  recipe_of_data v = Ok (Some r) <->
  exists d items,
    v = PDict d
    /\ py_truthy (field "title" PNone d) = true
    /\ py_iter (field "ingredients" (PList []) d) = Ok items
    /\ result_mapM ingredient_of_item items = Ok (ingredients r)
    /\ validate_str (field "title" (PStr "") d) = Some (title r)
    /\ validate_str (field "description" (PStr "") d) = Some (description r)
    /\ validate_str (field "prep_time" (PStr "") d) = Some (prep_time r)
    /\ validate_str (field "cook_time" (PStr "") d) = Some (cook_time r)
    /\ validate_str (field "servings" (PStr "") d) = Some (servings r)
    /\ validate_list_str (field "instructions" (PList []) d) = Some (instructions r).
Proof.
  split.
  - destruct v as [| | | | | |d]; try discriminate.
    unfold recipe_of_data, py_get. cbn [mbind result_bind].
    fold (field "title" PNone d) (field "title" (PStr "") d)
         (field "ingredients" (PList []) d) (field "description" (PStr "") d)
         (field "prep_time" (PStr "") d) (field "cook_time" (PStr "") d)
         (field "servings" (PStr "") d) (field "instructions" (PList []) d).
    destruct (py_truthy (field "title" PNone d)) eqn:Htitle; [|discriminate].
    cbn [negb].
    destruct (py_iter (field "ingredients" (PList []) d)) as [items|] eqn:Hiter;
      cbn [mbind result_bind]; [|discriminate].
    destruct (result_mapM ingredient_of_item items) as [ings|] eqn:Hings;
      cbn [mbind result_bind]; [|discriminate].
    unfold Recipe_init.
    destruct (validate_str (field "title" (PStr "") d)) eqn:H1;
    destruct (validate_str (field "description" (PStr "") d)) eqn:H2;
    destruct (validate_str (field "prep_time" (PStr "") d)) eqn:H3;
    destruct (validate_str (field "cook_time" (PStr "") d)) eqn:H4;
    destruct (validate_str (field "servings" (PStr "") d)) eqn:H5;
    destruct (validate_list_str (field "instructions" (PList []) d)) eqn:H6;
      cbn [mbind result_bind]; try discriminate.
    intros [= <-]. exists d, items. cbn. repeat split; assumption.
  - intros (d & items & -> & Htitle & Hiter & Hings & H1 & H2 & H3 & H4 & H5 & H6).
    unfold recipe_of_data, py_get. cbn [mbind result_bind].
    fold (field "title" PNone d) (field "title" (PStr "") d)
         (field "ingredients" (PList []) d) (field "description" (PStr "") d)
         (field "prep_time" (PStr "") d) (field "cook_time" (PStr "") d)
         (field "servings" (PStr "") d) (field "instructions" (PList []) d).
    rewrite Htitle, Hiter. cbn [mbind result_bind negb]. rewrite Hings.
    cbn [mbind result_bind]. unfold Recipe_init.
    rewrite H1, H2, H3, H4, H5, H6. destruct r; reflexivity.
Qed.

(** A payload that is no JSON object, or one whose title is missing or
    empty, gives no [Recipe]. *)
Lemma recipe_of_data_untitled (d : list (string * pyval)) :
  py_truthy (field "title" PNone d) = false ->
  recipe_of_data (PDict d) = Ok None.
Proof.
  intros Htitle. unfold recipe_of_data, py_get. cbn [mbind result_bind].
  fold (field "title" PNone d). rewrite Htitle. reflexivity.
Qed.

(** A value that passes as [str] and is truthy is a non-empty string. *)
Lemma truthy_str (d : list (string * pyval)) (s : string) :
  py_truthy (field "title" PNone d) = true ->
  validate_str (field "title" (PStr "") d) = Some s ->
  dict_lookup "title" d = Some (PStr s) /\ s <> "".
Proof.
  unfold field. destruct (dict_lookup "title" d) as [v|]; [|discriminate].
  destruct v; try discriminate. intros Htruthy [= ->].
  split; [reflexivity|]. intros ->. discriminate.
Qed.

(** What the constructor call of the ingredient loop returns for a JSON
    object. *)
Lemma ingredient_of_item_dict (d : list (string * pyval)) :
  ingredient_of_item (PDict d)
  = Ingredient_init (field "name" (PStr "") d) (field "quantity" PNone d)
      (field "unit" PNone d).
Proof. reflexivity. Qed.

Lemma result_mapM_length {A B : Type} (f : A -> result B) (l : list A) (bs : list B) :
  result_mapM f l = Ok bs -> length bs = length l.
Proof.
  revert bs. induction l as [|a l IH]; intros bs; simpl.
  - intros [= <-]. reflexivity.
  - destruct (f a); [|discriminate].
    destruct (result_mapM f l) as [bs'|]; [|discriminate].
    intros [= <-]. simpl. f_equal. apply IH. reflexivity.
Qed.

Lemma result_mapM_Forall2 {A B : Type} (f : A -> result B) (l : list A) (bs : list B) :
  result_mapM f l = Ok bs <-> Forall2 (fun a b => f a = Ok b) l bs.
Proof.
  revert bs. induction l as [|a l IH]; intros bs; simpl.
  - split; [intros [= <-]; constructor | intros H; inversion H; reflexivity].
  - split.
    + destruct (f a) as [b|] eqn:Hfa; [|discriminate].
      destruct (result_mapM f l) as [bs'|]; [|discriminate].
      intros [= <-]. constructor; [exact Hfa | apply IH; reflexivity].
    + intros H. inversion H as [|? b ? bs' Hfa Hrest]; subst.
      rewrite Hfa. apply IH in Hrest. rewrite Hrest. reflexivity.
Qed.

End BuildProofs.

(* ===================================================================== *)
(** ** Properties of [extract_recipe] *)

Section ExtractRecipe.
Context {F : PyFloat} {FM : FloatModel} {JP : JsonParser}.
Implicit Types (lx : lx_request -> call_outcome) (self : RecipeExtractor).

(** C1, as amended. When the text is long enough and the service returns
    the extractions [l], [extract_recipe] returns the recipe of the first
    extraction of class "Recipe" from which a [Recipe] can be built: its
    payload parses, has a non-empty title and passes the constructors.
    Every extraction before it is skipped, whether it is of another class,
    has no title or raises on the way. In particular a partial object
    without a title followed by a complete one yields the complete one. *)
Theorem extract_recipe_first_usable lx self (text : string) (l : list Extraction) :
  100 <= String.length (py_strip text) ->
  lx (request_of self text) = Returns (ResultDocument (Some l)) ->
  (forall r,
      fst (extract_recipe lx self text) = Some r <->
      exists pre e post,
        l = pre ++ e :: post /\ Forall skipped pre
        /\ extraction_class e = "Recipe" /\ parse_extraction e = Ok (Some r))
  /\ (forall p c d r,
         l = [p; c] ->
         json_loads (extraction_text p) = Ok (PDict d) ->
         dict_lookup "title" d = None ->
         extraction_class c = "Recipe" ->
         parse_extraction c = Ok (Some r) ->
         fst (extract_recipe lx self text) = Some r).
Proof.
  intros Hlen Hcall.
  rewrite (extract_recipe_returns lx self text _ Hlen Hcall). simpl.
  split.
  - intros r. split.
    + apply scan_extractions_some.
    + intros (pre & e & post & -> & Hpre & Hclass & Hparse).
      apply scan_extractions_first; assumption.
  - intros p c d r -> Hp Hnone Hclass Hparse.
    apply (scan_extractions_first [p] c []); [|assumption..].
    constructor; [|constructor]. right. left.
    unfold parse_extraction. rewrite Hp. cbn [mbind result_bind].
    apply recipe_of_data_untitled. unfold field. rewrite Hnone. reflexivity.
Qed.

(** C4. A text that is shorter than 100 characters once stripped gives no
    recipe, and the trace holds the two log lines only: the service is
    not called. *)
Theorem extract_recipe_short_text lx self (text : string) :
  String.length (py_strip text) < 100 ->
  extract_recipe lx self text
  = (None, [Log INFO (MsgExtracting (String.length text));
            Log WARNING MsgTextTooShort])
  /\ calls_of (snd (extract_recipe lx self text)) = [].
Proof.
  intros Hlen. unfold extract_recipe.
  apply Nat.ltb_lt in Hlen. rewrite Hlen. split; reflexivity.
Qed.

(** C7. If the call to the service raises, [extract_recipe] returns no
    recipe; the exception is logged as an error after the call and goes no
    further. *)
Theorem extract_recipe_service_raises lx self (text : string) (e : exn) :
  lx (request_of self text) = Raises e ->
  fst (extract_recipe lx self text) = None
  /\ (100 <= String.length (py_strip text) ->
      extract_recipe lx self text
      = (None, [Log INFO (MsgExtracting (String.length text));
                Call (request_of self text);
                Log ERROR (MsgExtractionError e)])).
Proof.
  intros Hcall. unfold extract_recipe. fold (request_of self text).
  rewrite Hcall.
  destruct (String.length (py_strip text) <? 100)%nat eqn:Hlen.
  - split; [reflexivity|]. intros Hge.
    apply Nat.ltb_lt in Hlen. lia.
  - split; reflexivity.
Qed.

(** Where a returned recipe comes from: one of the extractions the
    service returned, of class "Recipe", whose payload parsed to a JSON
    object from which the recipe was built. *)
Lemma extract_recipe_origin lx self (text : string) (r : Recipe) :
  fst (extract_recipe lx self text) = Some r ->
  exists res e d,
    lx (request_of self text) = Returns res
    /\ In e (visible_extractions res)
    /\ extraction_class e = "Recipe"
    /\ json_loads (extraction_text e) = Ok (PDict d)
    /\ recipe_of_data (PDict d) = Ok (Some r).
Proof.
  intros Hfound.
  destruct (extract_recipe_some _ _ _ _ Hfound) as (_ & res & Hcall & Hscan).
  destruct (scan_extractions_some _ _ Hscan)
    as (pre & e & post & Hl & _ & Hclass & Hparse).
  unfold parse_extraction in Hparse.
  destruct (json_loads (extraction_text e)) as [v|] eqn:Hloads; [|discriminate].
  cbn [mbind result_bind] in Hparse.
  destruct (proj1 (recipe_of_data_some v r) Hparse) as (d & _ & -> & _).
  exists res, e, d. repeat split; try assumption.
  rewrite Hl. apply in_or_app. right. left. reflexivity.
Qed.

(** C10. A recipe that [extract_recipe] returns has a non-empty title: it
    is the non-empty string under "title" in the payload it was built
    from, and a payload whose title is missing or empty gives no recipe. *)
Theorem extract_recipe_title_nonempty lx self (text : string) (r : Recipe) :
  fst (extract_recipe lx self text) = Some r ->
  title r <> ""
  /\ (exists res e d,
         lx (request_of self text) = Returns res
         /\ In e (visible_extractions res)
         /\ json_loads (extraction_text e) = Ok (PDict d)
         /\ dict_lookup "title" d = Some (PStr (title r)))
  /\ (forall e d,
         json_loads (extraction_text e) = Ok (PDict d) ->
         py_truthy (field "title" PNone d) = false ->
         parse_extraction e = Ok None).
Proof.
  intros Hfound.
  destruct (extract_recipe_origin _ _ _ _ Hfound)
    as (res & e & d & Hcall & Hin & _ & Hloads & Hbuild).
  apply recipe_of_data_some in Hbuild.
  destruct Hbuild as (d' & items & [= <-] & Htruthy & _ & _ & Htitle & _).
  destruct (truthy_str d (title r) Htruthy Htitle) as [Hlookup Hne].
  split; [exact Hne|]. split.
  - exists res, e, d. repeat split; assumption.
  - intros e' d' Hloads' Hfalsy. unfold parse_extraction.
    rewrite Hloads'. cbn [mbind result_bind].
    apply recipe_of_data_untitled. exact Hfalsy.
Qed.

(** A field that is not in the payload reads as its default. *)
Lemma validate_str_default (key : string) (d : list (string * pyval)) (s : string) :
  validate_str (field key (PStr "") d) = Some s ->
  dict_lookup key d = None -> s = "".
Proof.
  unfold field. intros Hvalid Hnone. rewrite Hnone in Hvalid.
  injection Hvalid as <-. reflexivity.
Qed.

(** C5. A recipe that [extract_recipe] returns has its seven fields. It
    was built from the JSON object of one of the returned extractions,
    and whatever object it was built from, every field that object leaves
    out holds its default: the empty string for the five text fields, the
    empty list for the ingredients and for the instructions. *)
Theorem extract_recipe_defaults lx self (text : string) (r : Recipe) :
  fst (extract_recipe lx self text) = Some r ->
  (exists res e d,
      lx (request_of self text) = Returns res
      /\ In e (visible_extractions res)
      /\ extraction_class e = "Recipe"
      /\ json_loads (extraction_text e) = Ok (PDict d)
      /\ recipe_of_data (PDict d) = Ok (Some r))
  /\ (forall d,
         recipe_of_data (PDict d) = Ok (Some r) ->
         (dict_lookup "title" d = None -> title r = "")
         /\ (dict_lookup "description" d = None -> description r = "")
         /\ (dict_lookup "prep_time" d = None -> prep_time r = "")
         /\ (dict_lookup "cook_time" d = None -> cook_time r = "")
         /\ (dict_lookup "servings" d = None -> servings r = "")
         /\ (dict_lookup "ingredients" d = None -> ingredients r = [])
         /\ (dict_lookup "instructions" d = None -> instructions r = [])).
Proof.
  intros Hfound. split; [apply extract_recipe_origin; exact Hfound|].
  intros d Hbuild. apply recipe_of_data_some in Hbuild.
  destruct Hbuild
    as (d' & items & [= <-] & _ & Hiter & Hings & H1 & H2 & H3 & H4 & H5 & H6).
  repeat split; try (eapply validate_str_default; eassumption).
  - intros Hnone. unfold field in Hiter. rewrite Hnone in Hiter.
    injection Hiter as <-. simpl in Hings. injection Hings as <-. reflexivity.
  - intros Hnone. unfold field in H6. rewrite Hnone in H6.
    simpl in H6. injection H6 as <-. reflexivity.
Qed.

End ExtractRecipe.

(* ===================================================================== *)
(** ** Populated payloads and ingredients with missing keys *)

Section FieldValues.
Context {F : PyFloat} {FM : FloatModel} {JP : JsonParser}.
Implicit Types (lx : lx_request -> call_outcome) (self : RecipeExtractor).

Lemma validate_all_strings (l : list string) :
  validate_all validate_str (map PStr l) = Some l.
Proof.
  induction l as [|s l IH]; [reflexivity|]. simpl. rewrite IH. reflexivity.
Qed.

Lemma validate_float_number (v : pyval) (q : pyfloat) :
  json_number v q -> validate_optional validate_float v = Some (Some q).
Proof.
  intros [-> | (z & -> & Hz)]; simpl; [reflexivity|]. rewrite Hz. reflexivity.
Qed.

Lemma holds_ingredient_built (item : pyval) (i : Ingredient) :
  holds_ingredient item i -> ingredient_of_item item = Ok i.
Proof.
  intros (d & q & u & -> & Hname & (v & Hq & Hnum) & Hiq & Hunit & Hiu).
  rewrite ingredient_of_item_dict. unfold field, Ingredient_init.
  rewrite Hname, Hq, Hunit, (validate_float_number v q Hnum). simpl.
  destruct i as [n q' u']. simpl in *. subst. reflexivity.
Qed.

Lemma holds_recipe_built (d : list (string * pyval)) (r : Recipe) :
  holds_recipe d r -> recipe_of_data (PDict d) = Ok (Some r).
Proof.
  intros (Hne & Ht & Hd & Hp & Hc & Hs & (items & Hi & Hitems) & Hn).
  apply recipe_of_data_some. exists d, items. unfold field.
  rewrite Ht, Hd, Hp, Hc, Hs, Hi, Hn. simpl.
  repeat split; try reflexivity.
  - destruct (title r); [contradiction | reflexivity].
  - apply result_mapM_Forall2.
    eapply Forall2_impl; [exact Hitems|]. apply holds_ingredient_built.
  - apply validate_all_strings.
Qed.

(** C2. When the service returns a single extraction of class "Recipe"
    whose payload is a JSON object with every field of the two models
    populated, the recipe returned carries each of those values: the five
    texts, the ingredients in order with name, quantity and unit, and the
    instructions in order. *)
Theorem extract_recipe_round_trip lx self (text : string) (e : Extraction)
    (d : list (string * pyval)) (r : Recipe) :
  100 <= String.length (py_strip text) ->
  lx (request_of self text) = Returns (ResultDocument (Some [e])) ->
  extraction_class e = "Recipe" ->
  json_loads (extraction_text e) = Ok (PDict d) ->
  holds_recipe d r ->
  fst (extract_recipe lx self text) = Some r.
Proof.
  intros Hlen Hcall Hclass Hloads Hholds.
  rewrite (extract_recipe_returns lx self text _ Hlen Hcall). simpl.
  apply (scan_extractions_first [] e []); [constructor | exact Hclass |].
  unfold parse_extraction. rewrite Hloads. cbn [mbind result_bind].
  apply holds_recipe_built. exact Hholds.
Qed.

(** C6, as amended. An ingredient object without the "quantity" key, or
    without the "unit" key, whose name and other field pass the checks of
    the [Ingredient] model, becomes an [Ingredient] with [None] in that
    field; and a recipe has one ingredient for every item of the payload's
    list, in the same order, so none is dropped. *)
Theorem ingredient_missing_keys (d : list (string * pyval)) (n : string) :
  validate_str (field "name" (PStr "") d) = Some n ->
  (dict_lookup "quantity" d = None ->
   forall u, validate_optional validate_str (field "unit" PNone d) = Some u ->
             ingredient_of_item (PDict d)
             = Ok {| ing_name := n; ing_quantity := None; ing_unit := u |})
  /\ (dict_lookup "unit" d = None ->
      forall q, validate_optional validate_float (field "quantity" PNone d) = Some q ->
                ingredient_of_item (PDict d)
                = Ok {| ing_name := n; ing_quantity := q; ing_unit := None |})
  /\ (forall v r,
         recipe_of_data v = Ok (Some r) ->
         exists data items,
           v = PDict data
           /\ py_iter (field "ingredients" (PList []) data) = Ok items
           /\ Forall2 (fun item i => ingredient_of_item item = Ok i)
                items (ingredients r)).
Proof.
  intros Hname. split; [|split].
  - intros Hnone u Hunit. rewrite ingredient_of_item_dict.
    unfold Ingredient_init. rewrite Hname, Hunit.
    unfold field at 1. rewrite Hnone. reflexivity.
  - intros Hnone q Hq. rewrite ingredient_of_item_dict.
    unfold Ingredient_init. rewrite Hname, Hq.
    unfold field at 1. rewrite Hnone. reflexivity.
  - intros v r Hbuild. apply recipe_of_data_some in Hbuild.
    destruct Hbuild as (data & items & -> & _ & Hiter & Hings & _).
    exists data, items. repeat split; [exact Hiter|].
    apply result_mapM_Forall2. exact Hings.
Qed.

End FieldValues.

(* ===================================================================== *)
(** ** The file name made from the title *)

Lemma str_app_cons (c : ascii) (a b : string) :
  String c a +:+ b = String c (a +:+ b).
Proof. reflexivity. Qed.

Lemma str_map_app (f : ascii -> ascii) (a b : string) :
  str_map f (a +:+ b) = str_map f a +:+ str_map f b.
Proof.
  induction a as [|c a IH]; [reflexivity|].
  rewrite str_app_cons. simpl str_map. rewrite IH. reflexivity.
Qed.

(** Of the characters line 68 keeps, only the space is whitespace. *)
Lemma kept_blank_is_space (c : ascii) :
  slug_keeps c = true -> py_isspace c = true -> c = " "%char.
Proof.
  destruct c as [[] [] [] [] [] [] [] []]; vm_compute; intros Hk Hs;
    first [reflexivity | discriminate].
Qed.

(** [rstrip] takes only spaces off a filtered title. *)
Lemma rstrip_filtered (t : string) :
  exists k, str_filter slug_keeps t
            = py_rstrip (str_filter slug_keeps t) +:+ spaces k.
Proof.
  induction t as [|c t [k IH]]; [exists 0; reflexivity|].
  simpl str_filter. destruct (slug_keeps c) eqn:Hkeep; [|exists k; exact IH].
  simpl py_rstrip.
  destruct (py_rstrip (str_filter slug_keeps t)) as [|c' r'] eqn:Hr.
  - destruct (py_isspace c) eqn:Hspace.
    + exists (S k). rewrite (kept_blank_is_space c Hkeep Hspace).
      change (String " " (str_filter slug_keeps t) = String " " (spaces k)).
      f_equal. exact IH.
    + exists k. rewrite str_app_cons. f_equal. exact IH.
  - exists k. rewrite str_app_cons. f_equal. exact IH.
Qed.

Lemma slug_of_spaces (k : nat) :
  py_lower (py_replace_char " " "_" (spaces k)) = underscores k.
Proof.
  induction k as [|k IH]; [reflexivity|].
  unfold py_lower, py_replace_char in *. simpl. f_equal. exact IH.
Qed.

(* ===================================================================== *)
(** ** Files and exit code *)

Lemma str_length_app (a b : string) :
  String.length (a +:+ b) = String.length a + String.length b.
Proof.
  induction a as [|c a IH]; [reflexivity|].
  rewrite str_app_cons. simpl String.length. rewrite IH. reflexivity.
Qed.

(** An output file is never the output directory itself. *)
Lemma path_join_not_dir (dir : Path) (name ext : string) :
  2 <= String.length ext ->
  path_join dir (name +:+ ext) <> path_str dir.
Proof.
  intros Hext Heq. apply (f_equal String.length) in Heq.
  unfold path_join in Heq.
  destruct (String.eqb (path_str dir) ".") eqn:Hdot.
  - apply String.eqb_eq in Hdot. rewrite Hdot in Heq.
    rewrite str_length_app in Heq. simpl in Heq. lia.
  - rewrite !str_length_app in Heq. simpl in Heq. lia.
Qed.


Section MainProofs.
Context {F : PyFloat} {FM : FloatModel} {JP : JsonParser}.
Variable html : Recipe -> string -> string.
Variable lx : lx_request -> call_outcome.

Ltac io_unfold :=
  unfold save_outputs, io_bind, io_log, io_lift, io_ret, mkdir, write_text, emit;
  simpl.



(** The [try] block up to the end of the extraction: it touches neither
    a file nor a directory, and hands over to [save_outputs] when a recipe
    was found. *)
Lemma parse_recipe_try_front (input : path_arg) (dir : Path) (k m : string)
    (w : World) :
  exists w',
    files w' = files w /\ dirs w' = dirs w
    /\ calls_of (trace w') = calls_of (trace w)
                             ++ match files w !! path_arg_text input with
                                | Some text =>
                                    if str_is_empty (py_strip text) then []
                                    else calls_of (snd (extract_recipe lx
                                           {| api_key := k; model := m |} text))
                                | None => []
                                end
    /\ parse_recipe_try html lx input dir k m w
       = match files w !! path_arg_text input with
         | None => (Raise (OSError "FileNotFoundError" (path_arg_text input)), w')
         | Some text =>
             if str_is_empty (py_strip text) then (Ok false, w')
             else match fst (extract_recipe lx {| api_key := k; model := m |} text) with
                  | None => (Ok false, w')
                  | Some recipe => save_outputs html recipe text input dir w'
                  end
         end.
Proof.
  unfold parse_recipe_try, io_bind, io_log, read_text, io_ret,
    RecipeExtractor_init. simpl.
  destruct (files w !! path_arg_text input) as [text|].
  2:{ eexists. split; [|split; [|split; [|reflexivity]]]; try reflexivity.
      simpl. unfold calls_of. rewrite flat_map_app. reflexivity. }
  destruct (str_is_empty (py_strip text)).
  { eexists. split; [|split; [|split; [|reflexivity]]]; try reflexivity.
    simpl. unfold calls_of. rewrite !flat_map_app. simpl.
    rewrite !app_nil_r. reflexivity. }
  destruct (extract_recipe lx {| api_key := k; model := m |} text)
    as [[recipe|] evs]; simpl.
  - eexists. split; [|split; [|split; [|reflexivity]]]; try reflexivity.
    simpl. unfold calls_of. rewrite !flat_map_app. simpl.
    rewrite !app_nil_r. reflexivity.
  - eexists. split; [|split; [|split; [|reflexivity]]]; try reflexivity.
    simpl. unfold calls_of. rewrite !flat_map_app. simpl.
    rewrite !app_nil_r. reflexivity.
Qed.

(** [except Exception] adds a log line and nothing else. *)
Lemma parse_recipe_of_try (input : path_arg) (dir : Path) (k m : string)
    (w : World) :
  fst (parse_recipe html lx input dir k m w)
  = match fst (parse_recipe_try html lx input dir k m w) with
    | Ok b => b
    | Raise _ => false
    end
  /\ files (snd (parse_recipe html lx input dir k m w))
     = files (snd (parse_recipe_try html lx input dir k m w))
  /\ dirs (snd (parse_recipe html lx input dir k m w))
     = dirs (snd (parse_recipe_try html lx input dir k m w))
  /\ calls_of (trace (snd (parse_recipe html lx input dir k m w)))
     = calls_of (trace (snd (parse_recipe_try html lx input dir k m w))).
Proof.
  unfold parse_recipe.
  destruct (parse_recipe_try html lx input dir k m w) as [[b|e] w'];
    repeat split.
  simpl. unfold calls_of. rewrite flat_map_app. simpl. apply app_nil_r.
Qed.

(** A run of [save_outputs] that returns [True] has written both files. *)
Lemma save_outputs_true (recipe : Recipe) (text : string) (input : path_arg)
    (dir : Path) (w : World) :
  fst (save_outputs html recipe text input dir w) = Ok true ->
  exists name,
    output_stem (title recipe) input = Ok name
    /\ files (snd (save_outputs html recipe text input dir w))
         !! path_join dir (name +:+ ".json")
       = Some (json_dumps (Recipe_model_dump recipe))
    /\ files (snd (save_outputs html recipe text input dir w))
         !! path_join dir (name +:+ ".html")
       = Some (html recipe text).
Proof.
  destruct w as [f D t]. io_unfold.
  destruct (f !! path_str dir); simpl; [discriminate|].
  destruct (output_stem (title recipe) input) as [name|e]; simpl; [|discriminate].
  destruct (decide (path_join dir (name +:+ ".json") ∈ {[path_str dir]} ∪ D));
    simpl; [discriminate|].
  destruct (decide (path_join dir (name +:+ ".html") ∈ {[path_str dir]} ∪ D));
    simpl; [discriminate|].
  intros _. exists name. split; [reflexivity|]. split.
  - rewrite lookup_insert_ne; [apply lookup_insert_eq|].
    unfold path_join. destruct (String.eqb (path_str dir) "."); intros Heq.
    + apply String.app_inj in Heq. discriminate.
    + do 2 apply String.app_inj in Heq. apply String.app_inj in Heq.
      discriminate.
  - apply lookup_insert_eq.
Qed.



End MainProofs.

(* ===================================================================== *)
(** ** More on the extraction loop and the payload *)

Section ExtractMore.
Context {F : PyFloat} {FM : FloatModel} {JP : JsonParser}.
Implicit Types (lx : lx_request -> call_outcome) (self : RecipeExtractor).

Lemma scan_extractions_none (l : list Extraction) :
  fst (scan_extractions l) = None <-> Forall skipped l.
Proof.
  split.
  - induction l as [|x l IH]; intros Hscan; [constructor|].
    simpl in Hscan.
    destruct (String.eqb (extraction_class x) "Recipe") eqn:Hclass.
    + destruct (parse_extraction x) as [[r|]|err] eqn:Hparse.
      * discriminate.
      * destruct (scan_extractions l) as [found evs]. simpl in *.
        constructor; [right; left; exact Hparse | apply IH; exact Hscan].
      * destruct (scan_extractions l) as [found evs]. simpl in *.
        constructor; [right; right; exists err; exact Hparse | apply IH; exact Hscan].
    + apply String.eqb_neq in Hclass.
      constructor; [left; exact Hclass | apply IH; exact Hscan].
  - induction 1 as [|x l Hx _ IH]; [reflexivity|].
    rewrite scan_extractions_skip by exact Hx. exact IH.
Qed.

Lemma extract_recipe_calls_aux lx self (text : string) :
  calls_of (snd (extract_recipe lx self text))
  = if (String.length (py_strip text) <? 100)%nat then []
    else [request_of self text].
Proof.
  unfold extract_recipe. fold (request_of self text).
  destruct (String.length (py_strip text) <? 100)%nat; [reflexivity|].
  destruct (lx (request_of self text)) as [res|e]; [|reflexivity].
  pose proof (scan_extractions_no_calls (visible_extractions res)) as Hnone.
  destruct (scan_extractions (visible_extractions res)) as [[r|] evs];
    simpl in *.
  - rewrite Hnone. reflexivity.
  - unfold calls_of in *. rewrite flat_map_app, Hnone. reflexivity.
Qed.

(** X1. One run of [extract_recipe] calls the service once when the
    stripped text has 100 characters or more, and not at all otherwise;
    the one request carries the whole text (unstripped), the extractor's
    model and its API key. There is no second call, whatever the first
    one returned or raised. *)
Theorem extract_recipe_one_call lx self (text : string) :
  calls_of (snd (extract_recipe lx self text))
  = if (String.length (py_strip text) <? 100)%nat then []
    else [{| text_or_documents := text; model_id := model self;
             req_api_key := api_key self |}].
Proof.
  rewrite extract_recipe_calls_aux.
  destruct (String.length (py_strip text) <? 100)%nat; reflexivity.
Qed.

(** X2. [extract_recipe] returns no recipe in exactly three cases: the
    stripped text is shorter than 100 characters, the call to the service
    raises, or every extraction the service returned is skipped. *)
Theorem extract_recipe_none_iff lx self (text : string) :
  fst (extract_recipe lx self text) = None <->
  String.length (py_strip text) < 100
  \/ (exists e, lx (request_of self text) = Raises e)
  \/ (exists res, lx (request_of self text) = Returns res
                  /\ Forall skipped (visible_extractions res)).
Proof.
  unfold extract_recipe. fold (request_of self text).
  destruct (String.length (py_strip text) <? 100)%nat eqn:Hlen.
  - apply Nat.ltb_lt in Hlen. split; [intros _; left; exact Hlen | reflexivity].
  - apply Nat.ltb_ge in Hlen.
    destruct (lx (request_of self text)) as [res|e] eqn:Hcall.
    + pose proof (scan_extractions_none (visible_extractions res)) as Hnone.
      destruct (scan_extractions (visible_extractions res)) as [[r|] evs];
        simpl in *; split.
      * discriminate.
      * intros [Hshort | [[e He] | (res' & [= <-] & Hall)]];
          [lia | discriminate | apply Hnone in Hall; discriminate].
      * intros _. right. right. exists res.
        split; [reflexivity | apply Hnone; reflexivity].
      * reflexivity.
    + split; [|reflexivity]. intros _. right. left. exists e. reflexivity.
Qed.

(** X3. Extractions whose class is not exactly "Recipe" have no effect:
    the loop returns the same recipe and writes the same log lines as on
    the list without them. *)
Theorem scan_extractions_other_classes (l : list Extraction) :
  scan_extractions (List.filter is_recipe_class l) = scan_extractions l.
Proof.
  induction l as [|x l IH]; [reflexivity|].
  simpl List.filter. unfold is_recipe_class at 1.
  destruct (String.eqb (extraction_class x) "Recipe") eqn:Hclass.
  - simpl. rewrite Hclass.
    destruct (parse_extraction x) as [[r|]|err]; [reflexivity| |];
      rewrite IH; reflexivity.
  - simpl. rewrite Hclass. exact IH.
Qed.

(** X4. When the service returns nothing to look at (a falsy result, one
    without an [extractions] attribute, or a document whose extractions
    are [None] or the empty list), [extract_recipe] returns no recipe and
    logs the warning after the call. *)
Theorem extract_recipe_nothing_returned lx self (text : string) (res : lx_result) :
  100 <= String.length (py_strip text) ->
  lx (request_of self text) = Returns res ->
  res = ResultFalsy \/ res = ResultWithoutExtractions
  \/ res = ResultDocument None \/ res = ResultDocument (Some []) ->
  extract_recipe lx self text
  = (None, [Log INFO (MsgExtracting (String.length text));
            Call (request_of self text);
            Log WARNING MsgNoExtractions]).
Proof.
  intros Hlen Hcall Hres. unfold extract_recipe. fold (request_of self text).
  apply Nat.ltb_ge in Hlen. rewrite Hlen, Hcall.
  destruct Hres as [-> | [-> | [-> | ->]]]; reflexivity.
Qed.

(** X5. A [null] under one of the six checked keys costs the extraction:
    where a missing key would read as its default, an explicit [null]
    under "description", "prep_time", "cook_time", "servings",
    "ingredients" or "instructions" never gives a recipe, and the
    extraction is skipped. *)
Theorem null_field_refused (e : Extraction) (d : list (string * pyval))
    (key : string) :
  In key checked_keys ->
  json_loads (extraction_text e) = Ok (PDict d) ->
  dict_lookup key d = Some PNone ->
  (recipe_of_data (PDict d) = Ok None
   \/ exists err, recipe_of_data (PDict d) = Raise err)
  /\ skipped e.
Proof.
  intros Hkey Hloads Hnull.
  assert (Hno : forall r, recipe_of_data (PDict d) = Ok (Some r) -> False).
  { intros r Hbuild. apply recipe_of_data_some in Hbuild.
    destruct Hbuild
      as (d' & items & [= <-] & _ & Hiter & _ & _ & H2 & H3 & H4 & H5 & H6).
    unfold field in *. simpl in Hkey.
    destruct Hkey as [<- | [<- | [<- | [<- | [<- | [<- | []]]]]]];
      rewrite Hnull in *; discriminate. }
  assert (Hcases : recipe_of_data (PDict d) = Ok None
                   \/ exists err, recipe_of_data (PDict d) = Raise err).
  { destruct (recipe_of_data (PDict d)) as [[r|]|err] eqn:Hbuild.
    - destruct (Hno r eq_refl).
    - left. reflexivity.
    - right. exists err. reflexivity. }
  split; [exact Hcases|]. right.
  unfold parse_extraction. rewrite Hloads. cbn [mbind result_bind].
  exact Hcases.
Qed.

Lemma validate_optional_none {A : Type} (check : pyval -> option A) (v : pyval) :
  validate_optional check v = Some None <-> v = PNone.
Proof.
  split; [|intros ->; reflexivity].
  destruct v; simpl; try reflexivity;
    match goal with |- context [check ?x] => destruct (check x) end;
    discriminate.
Qed.

Lemma field_none_iff (key : string) (d : list (string * pyval)) :
  field key PNone d = PNone <-> absent_or_null key d.
Proof.
  unfold field, absent_or_null.
  destruct (dict_lookup key d) as [v|].
  - split; [intros ->; right; reflexivity | intros [H | [= ->]]; [discriminate | reflexivity]].
  - split; [intros _; left; reflexivity | reflexivity].
Qed.

(** X6. Where an ingredient's fields come from. In an [Ingredient] built
    from a JSON object, the quantity is [None] exactly when the object has
    no "quantity" key or holds [null] there, and likewise the unit; the
    name is the string under "name", or the empty string when the key is
    missing. *)
Theorem ingredient_field_origin (d : list (string * pyval)) (i : Ingredient) :
  ingredient_of_item (PDict d) = Ok i ->
  (ing_quantity i = None <-> absent_or_null "quantity" d)
  /\ (ing_unit i = None <-> absent_or_null "unit" d)
  /\ (dict_lookup "name" d = None -> ing_name i = "")
  /\ (forall v, dict_lookup "name" d = Some v -> v = PStr (ing_name i)).
Proof.
  rewrite ingredient_of_item_dict. unfold Ingredient_init.
  destruct (validate_str (field "name" (PStr "") d)) as [n|] eqn:Hn;
    [|discriminate].
  destruct (validate_optional validate_float (field "quantity" PNone d))
    as [q|] eqn:Hq; [|discriminate].
  destruct (validate_optional validate_str (field "unit" PNone d))
    as [u|] eqn:Hu; [|discriminate].
  intros [= <-]. simpl.
  split; [|split].
  { split.
    - intros ->. apply field_none_iff.
      apply (validate_optional_none validate_float). exact Hq.
    - intros Habsent. apply field_none_iff in Habsent.
      rewrite Habsent in Hq. injection Hq as <-. reflexivity. }
  { split.
    - intros ->. apply field_none_iff.
      apply (validate_optional_none validate_str). exact Hu.
    - intros Habsent. apply field_none_iff in Habsent.
      rewrite Habsent in Hu. injection Hu as <-. reflexivity. }
  unfold field in Hn. split.
  - intros Hnone. rewrite Hnone in Hn. injection Hn as <-. reflexivity.
  - intros v Hv. rewrite Hv in Hn. destruct v; try discriminate.
    injection Hn as <-. reflexivity.
Qed.

(** X7. A payload is read through seven keys only: two JSON objects that
    agree on "title", "description", "prep_time", "cook_time", "servings",
    "ingredients" and "instructions" give the same result, so any other
    key the model sends is dropped without a trace. *)
Theorem recipe_of_data_reads_seven_keys (d d' : list (string * pyval)) :
  same_on recipe_keys d d' ->
  recipe_of_data (PDict d) = recipe_of_data (PDict d').
Proof.
  intros Hsame. unfold recipe_of_data, py_get. cbn [mbind result_bind].
  rewrite (Hsame "title"), (Hsame "description"), (Hsame "prep_time"),
    (Hsame "cook_time"), (Hsame "servings"), (Hsame "ingredients"),
    (Hsame "instructions") by (simpl; tauto).
  reflexivity.
Qed.

Lemma ingredient_dump_built (i : Ingredient) :
  ingredient_of_item (Ingredient_model_dump i) = Ok i.
Proof.
  destruct i as [n [q|] [u|]]; reflexivity.
Qed.

Lemma ingredients_dump_built (l : list Ingredient) :
  result_mapM ingredient_of_item (map Ingredient_model_dump l) = Ok l.
Proof.
  induction l as [|i l IH]; [reflexivity|].
  simpl map. simpl result_mapM. rewrite ingredient_dump_built, IH. reflexivity.
Qed.

(** X8. What [model_dump] writes, [extract_recipe]'s builder reads back:
    the dumped fields of a recipe with a non-empty title build the same
    recipe again, quantities and units that are [None] included; with an
    empty title they build nothing. *)
Theorem model_dump_round_trip (r : Recipe) :
  recipe_of_data (Recipe_model_dump r)
  = Ok (if str_is_empty (title r) then None else Some r).
Proof.
  destruct (str_is_empty (title r)) eqn:Hempty.
  - apply recipe_of_data_untitled. unfold field. simpl.
    rewrite Hempty. reflexivity.
  - apply recipe_of_data_some.
    exists [("title", PStr (title r)); ("description", PStr (description r));
            ("prep_time", PStr (prep_time r)); ("cook_time", PStr (cook_time r));
            ("servings", PStr (servings r));
            ("ingredients", PList (map Ingredient_model_dump (ingredients r)));
            ("instructions", PList (map PStr (instructions r)))],
           (map Ingredient_model_dump (ingredients r)).
    unfold field. simpl. rewrite Hempty.
    repeat split; try reflexivity.
    + apply ingredients_dump_built.
    + apply validate_all_strings.
Qed.

End ExtractMore.

(* ===================================================================== *)
(** ** More on the file name *)

Ltac each_char c :=
  destruct c as [[] [] [] [] [] [] [] []]; vm_compute;
  try reflexivity; try discriminate; auto.

Lemma kept_then_replaced (c : ascii) :
  slug_keeps c = true ->
  slug_char (py_lower_char (if Ascii.eqb c " " then "_"%char else c)) = true.
Proof. each_char c. Qed.

Lemma slug_char_fixed (c : ascii) :
  slug_char c = true ->
  slug_keeps c = true /\ py_isspace c = false
  /\ (if Ascii.eqb c " " then "_"%char else c) = c /\ py_lower_char c = c.
Proof. each_char c; intros [=]. Qed.

Lemma str_forall_filter (p : ascii -> bool) (s : string) :
  str_forall p (str_filter p s) = true.
Proof.
  induction s as [|c s IH]; [reflexivity|]. simpl.
  destruct (p c) eqn:Hp; [simpl; rewrite Hp|]; exact IH.
Qed.

Lemma str_forall_rstrip (p : ascii -> bool) (s : string) :
  str_forall p s = true -> str_forall p (py_rstrip s) = true.
Proof.
  induction s as [|c s IH]; [reflexivity|]. simpl.
  intros [Hc Hs]%andb_prop. specialize (IH Hs).
  destruct (py_rstrip s) as [|c' r'].
  - destruct (py_isspace c); [reflexivity|]. simpl. rewrite Hc. reflexivity.
  - simpl in *. rewrite Hc. exact IH.
Qed.

Lemma str_forall_map (p q : ascii -> bool) (f : ascii -> ascii) (s : string) :
  (forall c, p c = true -> q (f c) = true) ->
  str_forall p s = true -> str_forall q (str_map f s) = true.
Proof.
  intros Hpq. induction s as [|c s IH]; [reflexivity|]. simpl.
  intros [Hc Hs]%andb_prop. rewrite (Hpq c Hc). exact (IH Hs).
Qed.

Lemma str_map_map (f g : ascii -> ascii) (s : string) :
  str_map f (str_map g s) = str_map (fun c => f (g c)) s.
Proof.
  induction s as [|c s IH]; [reflexivity|]. simpl. rewrite IH. reflexivity.
Qed.

Lemma safe_title_slug_chars (t : string) :
  str_forall slug_char (safe_title t) = true.
Proof.
  unfold safe_title, py_lower, py_replace_char. rewrite str_map_map.
  apply (str_forall_map slug_keeps); [exact kept_then_replaced|].
  apply str_forall_rstrip, str_forall_filter.
Qed.

Lemma str_filter_all (p : ascii -> bool) (s : string) :
  str_forall p s = true -> str_filter p s = s.
Proof.
  induction s as [|c s IH]; [reflexivity|]. simpl.
  intros [Hc Hs]%andb_prop. rewrite Hc, (IH Hs). reflexivity.
Qed.

Lemma py_rstrip_no_space (s : string) :
  str_forall (fun c => negb (py_isspace c)) s = true -> py_rstrip s = s.
Proof.
  induction s as [|c s IH]; [reflexivity|]. simpl.
  intros [Hc Hs]%andb_prop. rewrite (IH Hs).
  destruct s; [|reflexivity].
  apply negb_true_iff in Hc. rewrite Hc. reflexivity.
Qed.

Lemma str_map_fixed (p : ascii -> bool) (f : ascii -> ascii) (s : string) :
  (forall c, p c = true -> f c = c) ->
  str_forall p s = true -> str_map f s = s.
Proof.
  intros Hfix. induction s as [|c s IH]; [reflexivity|]. simpl.
  intros [Hc Hs]%andb_prop. rewrite (Hfix c Hc), (IH Hs). reflexivity.
Qed.

Lemma str_forall_impl (p q : ascii -> bool) (s : string) :
  (forall c, p c = true -> q c = true) ->
  str_forall p s = true -> str_forall q s = true.
Proof.
  intros Hpq. induction s as [|c s IH]; [reflexivity|]. simpl.
  intros [Hc Hs]%andb_prop. rewrite (Hpq c Hc). exact (IH Hs).
Qed.

(** X9. Every character of the file name made from a title is
    alphanumeric, a hyphen or an underscore, and is its own lowercase; so
    the name holds no space, no dot and no path separator, whatever the
    title. *)
Theorem safe_title_chars (t : string) :
  str_forall slug_char (safe_title t) = true
  /\ str_forall (fun c => negb (py_isspace c || Ascii.eqb c "/"
                                || Ascii.eqb c char_backslash || Ascii.eqb c "."))
       (safe_title t) = true.
Proof.
  split; [apply safe_title_slug_chars|].
  apply (str_forall_impl slug_char); [|apply safe_title_slug_chars].
  intros c. each_char c.
Qed.

(** X10. Making a file name from a file name changes nothing:
    [safe_title] is idempotent. *)
Theorem safe_title_idempotent (t : string) :
  safe_title (safe_title t) = safe_title t.
Proof.
  pose proof (safe_title_slug_chars t) as Hchars.
  set (s := safe_title t) in *. unfold safe_title.
  rewrite (str_filter_all slug_keeps s).
  2:{ apply (str_forall_impl slug_char); [|exact Hchars].
      intros c Hc. apply (slug_char_fixed c Hc). }
  rewrite py_rstrip_no_space.
  2:{ apply (str_forall_impl slug_char); [|exact Hchars].
      intros c Hc. destruct (slug_char_fixed c Hc) as (_ & Hs & _).
      rewrite Hs. reflexivity. }
  unfold py_replace_char, py_lower.
  rewrite (str_map_fixed slug_char _ s); [|intros c Hc; apply (slug_char_fixed c Hc) | exact Hchars].
  apply (str_map_fixed slug_char); [|exact Hchars].
  intros c Hc. apply (slug_char_fixed c Hc).
Qed.

(* ===================================================================== *)
(** ** The file name and the amended wording *)

Lemma list_of_str_filter (p : ascii -> bool) (s : string) :
  list_ascii_of_string (str_filter p s)
  = List.filter p (list_ascii_of_string s).
Proof.
  induction s as [|c s IH]; [reflexivity|]. simpl.
  destruct (p c); simpl; rewrite IH; reflexivity.
Qed.

Lemma list_of_str_map (f : ascii -> ascii) (s : string) :
  list_ascii_of_string (str_map f s) = map f (list_ascii_of_string s).
Proof.
  induction s as [|c s IH]; [reflexivity|]. simpl. rewrite IH. reflexivity.
Qed.

(** Line 68 keeps the characters the wording names. *)
Lemma slug_keeps_is_kept (c : ascii) : slug_keeps c = is_kept c.
Proof. each_char c. Qed.

(** [str.lower] turns the capital letters into their small letters and
    nothing else. *)
Lemma py_lower_char_to_small (c : ascii) : py_lower_char c = to_small c.
Proof. each_char c. Qed.

Lemma kept_space (c : ascii) :
  slug_keeps c = true -> py_isspace c = Ascii.eqb c " ".
Proof. each_char c. Qed.

Lemma drop_leading_spaces_snoc (a : list ascii) (c : ascii) :
  drop_leading_spaces (a ++ [c])
  = match drop_leading_spaces a with
    | [] => if Ascii.eqb c " " then [] else [c]
    | r => r ++ [c]
    end.
Proof.
  induction a as [|x a IH]; [reflexivity|]. simpl.
  destruct (Ascii.eqb x " "); [exact IH | reflexivity].
Qed.

Lemma drop_trailing_spaces_cons (c : ascii) (l : list ascii) :
  drop_trailing_spaces (c :: l)
  = match drop_trailing_spaces l with
    | [] => if Ascii.eqb c " " then [] else [c]
    | r => c :: r
    end.
Proof.
  unfold drop_trailing_spaces. simpl rev at 2.
  rewrite drop_leading_spaces_snoc.
  destruct (drop_leading_spaces (rev l)) as [|x r].
  - simpl. destruct (Ascii.eqb c " "); reflexivity.
  - rewrite rev_app_distr. simpl.
    destruct (rev r ++ [x]) eqn:Hr; [|reflexivity].
    destruct (rev r); discriminate.
Qed.

(** On a filtered title [rstrip] removes the spaces at the end, and
    nothing else. *)
Lemma list_of_rstrip (s : string) :
  str_forall slug_keeps s = true ->
  list_ascii_of_string (py_rstrip s)
  = drop_trailing_spaces (list_ascii_of_string s).
Proof.
  induction s as [|c s IH]; [reflexivity|]. simpl.
  intros [Hc Hs]%andb_prop. specialize (IH Hs).
  rewrite drop_trailing_spaces_cons, <- IH, (kept_space c Hc).
  destruct (py_rstrip s); [|reflexivity].
  simpl. destruct (Ascii.eqb c " "); reflexivity.
Qed.

Lemma safe_title_amended (t : string) : safe_title t = amended_slug t.
Proof.
  rewrite <- (string_of_list_ascii_of_string (safe_title t)).
  unfold amended_slug, safe_title, py_lower, py_replace_char. f_equal.
  rewrite !list_of_str_map, list_of_rstrip by apply str_forall_filter.
  rewrite list_of_str_filter.
  rewrite (List.filter_ext _ _ slug_keeps_is_kept).
  rewrite (map_ext _ _ py_lower_char_to_small).
  reflexivity.
Qed.

Lemma str_length_list (s : string) :
  String.length s = length (list_ascii_of_string s).
Proof.
  induction s as [|c s IH]; [reflexivity|]. simpl. rewrite IH. reflexivity.
Qed.

Lemma spaces_length (k : nat) : String.length (spaces k) = k.
Proof.
  induction k as [|k IH]; [reflexivity|]. simpl. rewrite IH. reflexivity.
Qed.

(** What [rstrip] takes off a filtered title is its trailing spaces. *)
Lemma rstrip_filtered_count (t : string) :
  str_filter slug_keeps t
  = py_rstrip (str_filter slug_keeps t) +:+ spaces (trailing_spaces t).
Proof.
  destruct (rstrip_filtered t) as [k Hk].
  replace (trailing_spaces t) with k; [exact Hk|].
  unfold trailing_spaces.
  rewrite <- (List.filter_ext _ _ slug_keeps_is_kept), <- list_of_str_filter.
  rewrite <- list_of_rstrip by apply str_forall_filter.
  rewrite <- !str_length_list.
  apply (f_equal String.length) in Hk.
  rewrite str_length_app, spaces_length in Hk. lia.
Qed.

Lemma spec_slug_amended (t : string) :
  spec_slug t = amended_slug t +:+ underscores (trailing_spaces t).
Proof.
  rewrite <- safe_title_amended. unfold spec_slug, safe_title.
  rewrite (rstrip_filtered_count t) at 1. unfold py_lower, py_replace_char.
  rewrite !str_map_app. f_equal. apply slug_of_spaces.
Qed.

Section FileName.
Context {F : PyFloat} {FM : FloatModel} {JP : JsonParser}.
Variable html : Recipe -> string -> string.

(** C3, as amended. The file name lines 68-69 make from a title is the
    one the amended wording describes: the characters that are not
    alphanumeric, space, hyphen or underscore are removed, then the
    spaces left at the end, then each space becomes an underscore and
    each capital letter its small letter ([amended_slug], written from
    the wording). The original wording, which does not remove the
    spaces at the end, gives the same name followed by one underscore
    per such space. A name that is not empty is the one used, whatever
    the input file; when it is empty and the input file is a [Path],
    the path's stem is used; and a run of lines 64-100 that ends well
    on a [Path] has written the recipe to [<name>.json] and the page to
    [<name>.html] in the output directory, for the name so chosen. *)
Theorem safe_title_spec (title_ : string) :
  safe_title title_ = amended_slug title_
  /\ spec_slug title_
     = amended_slug title_ +:+ underscores (trailing_spaces title_)
  /\ (forall input,
         str_is_empty (amended_slug title_) = false ->
         output_stem title_ input = Ok (amended_slug title_))
  /\ (forall p,
         str_is_empty (amended_slug title_) = true ->
         output_stem title_ (AsPath p) = Ok (stem p))
  /\ (forall (recipe : Recipe) text p dir w,
         title recipe = title_ ->
         fst (save_outputs html recipe text (AsPath p) dir w) = Ok true ->
         let name := if str_is_empty (amended_slug title_) then stem p
                     else amended_slug title_ in
         files (snd (save_outputs html recipe text (AsPath p) dir w))
           !! path_join dir (name +:+ ".json")
         = Some (json_dumps (Recipe_model_dump recipe))
         /\ files (snd (save_outputs html recipe text (AsPath p) dir w))
              !! path_join dir (name +:+ ".html")
            = Some (html recipe text)).
Proof.
  split; [apply safe_title_amended|].
  split; [apply spec_slug_amended|].
  unfold output_stem. rewrite safe_title_amended.
  split; [intros input ->; reflexivity|].
  split; [intros p ->; reflexivity|].
  intros recipe text p dir w Htitle Hsave.
  destruct (save_outputs_true html recipe text (AsPath p) dir w Hsave)
    as (name & Hname & Hjson & Hhtml).
  unfold output_stem in Hname. rewrite Htitle, safe_title_amended in Hname.
  simpl.
  destruct (str_is_empty (amended_slug title_)); simpl in Hname;
    injection Hname as <-; split; assumption.
Qed.

End FileName.

(* ===================================================================== *)
(** ** More on files, directories and the calls of a run *)

Section MainMore.
Context {F : PyFloat} {FM : FloatModel} {JP : JsonParser}.
Variable html : Recipe -> string -> string.
Variable lx : lx_request -> call_outcome.

Ltac save_unfold :=
  unfold save_outputs, io_bind, io_log, io_lift, io_ret, mkdir, write_text, emit;
  simpl.


Lemma calls_of_app (a b : list event) :
  calls_of (a ++ b) = calls_of a ++ calls_of b.
Proof. unfold calls_of. apply flat_map_app. Qed.

(** [save_outputs] calls nothing. *)
Lemma save_outputs_no_calls (recipe : Recipe) (text : string) (input : path_arg)
    (dir : Path) (w : World) :
  calls_of (trace (snd (save_outputs html recipe text input dir w)))
  = calls_of (trace w).
Proof.
  destruct w as [f D t]. save_unfold.
  destruct (f !! path_str dir); simpl; [reflexivity|].
  destruct (output_stem (title recipe) input) as [name|e]; simpl; [|reflexivity].
  destruct (decide (path_join dir (name +:+ ".json") ∈ {[path_str dir]} ∪ D));
    simpl; [rewrite calls_of_app; apply app_nil_r|].
  destruct (decide (path_join dir (name +:+ ".html") ∈ {[path_str dir]} ∪ D));
    simpl; rewrite !calls_of_app; simpl; rewrite !app_nil_r; reflexivity.
Qed.

(** What [save_outputs] may touch. *)
Lemma save_outputs_frame (recipe : Recipe) (text : string) (input : path_arg)
    (dir : Path) (w : World) (p : string) :
  (files (snd (save_outputs html recipe text input dir w)) !! p = files w !! p
   \/ exists name, output_stem (title recipe) input = Ok name
                   /\ (p = path_join dir (name +:+ ".json")
                       \/ p = path_join dir (name +:+ ".html")))
  /\ (dirs (snd (save_outputs html recipe text input dir w)) = dirs w
      \/ dirs (snd (save_outputs html recipe text input dir w))
         = {[path_str dir]} ∪ dirs w)
  /\ (is_Some (files w !! p) ->
      is_Some (files (snd (save_outputs html recipe text input dir w)) !! p)).
Proof.
  destruct w as [f D t]. save_unfold.
  destruct (f !! path_str dir); simpl; [auto|].
  destruct (output_stem (title recipe) input) as [name|e]; simpl; [|auto].
  destruct (decide (path_join dir (name +:+ ".json") ∈ {[path_str dir]} ∪ D));
    simpl; [auto|].
  destruct (decide (path_join dir (name +:+ ".html") ∈ {[path_str dir]} ∪ D));
    simpl.
  - split; [|split; [auto|]].
    + rewrite lookup_insert. case_decide; [|auto].
      right. exists name. auto.
    + rewrite lookup_insert. case_decide; [eauto | auto].
  - split; [|split; [auto|]].
    + rewrite !lookup_insert. repeat case_decide; auto;
        right; exists name; auto.
    + rewrite !lookup_insert. repeat case_decide; eauto.
Qed.

(** When [save_outputs] returns [True]. *)
Lemma save_outputs_ok_iff (recipe : Recipe) (text : string) (input : path_arg)
    (dir : Path) (w : World) :
  fst (save_outputs html recipe text input dir w) = Ok true <->
  files w !! path_str dir = None
  /\ exists name,
       output_stem (title recipe) input = Ok name
       /\ (path_join dir (name +:+ ".json") ∉ dirs w)
       /\ (path_join dir (name +:+ ".html") ∉ dirs w).
Proof.
  destruct w as [f D t]. save_unfold.
  destruct (f !! path_str dir); simpl.
  { split; [discriminate | intros [[=] _]]. }
  destruct (output_stem (title recipe) input) as [name|e]; simpl.
  2:{ split; [discriminate | intros (_ & name & [=] & _)]. }
  pose proof (path_join_not_dir dir name ".json" ltac:(simpl; lia)) as Hj.
  pose proof (path_join_not_dir dir name ".html" ltac:(simpl; lia)) as Hh.
  destruct (decide (path_join dir (name +:+ ".json") ∈ {[path_str dir]} ∪ D))
    as [Hjd|Hjd]; simpl.
  { split; [discriminate|]. intros (_ & name' & [= <-] & Hnj & _).
    apply elem_of_union in Hjd as [Hjd%elem_of_singleton | Hjd]; contradiction. }
  destruct (decide (path_join dir (name +:+ ".html") ∈ {[path_str dir]} ∪ D))
    as [Hhd|Hhd]; simpl.
  { split; [discriminate|]. intros (_ & name' & [= <-] & _ & Hnh).
    apply elem_of_union in Hhd as [Hhd%elem_of_singleton | Hhd]; contradiction. }
  split; [|reflexivity]. intros _. split; [reflexivity|].
  exists name. split; [reflexivity|].
  split; intros Hin; [apply Hjd | apply Hhd]; apply elem_of_union; right;
    exact Hin.
Qed.

Lemma save_outputs_true_dir (recipe : Recipe) (text : string) (input : path_arg)
    (dir : Path) (w : World) :
  fst (save_outputs html recipe text input dir w) = Ok true ->
  path_str dir ∈ dirs (snd (save_outputs html recipe text input dir w)).
Proof.
  destruct w as [f D t]. save_unfold.
  destruct (f !! path_str dir); simpl; [discriminate|].
  destruct (output_stem (title recipe) input) as [name|e]; simpl; [|discriminate].
  destruct (decide (path_join dir (name +:+ ".json") ∈ {[path_str dir]} ∪ D));
    simpl; [discriminate|].
  destruct (decide (path_join dir (name +:+ ".html") ∈ {[path_str dir]} ∪ D));
    simpl; [discriminate|].
  intros _. apply elem_of_union. left. apply elem_of_singleton. reflexivity.
Qed.


(** X12. What a run of [parse_recipe] may touch, for an input file
    without carriage return. A file changes only when the run got a
    recipe from the text of the input file, and it is then one of the two
    outputs, [<name>.json] and [<name>.html] in the output directory, for
    the name made from that recipe's title; no file disappears; no
    directory disappears, and a directory the run adds is the output
    directory or a directory above it. *)
Theorem parse_recipe_frame (input : path_arg) (dir : Path) (k m : string)
    (w : World) (p : string) :
  (forall text, files w !! path_arg_text input = Some text ->
                no_carriage_return text = true) ->
  (files (snd (parse_recipe html lx input dir k m w)) !! p = files w !! p
   \/ exists text recipe name,
        files w !! path_arg_text input = Some text
        /\ fst (extract_recipe lx {| api_key := k; model := m |} text)
           = Some recipe
        /\ output_stem (title recipe) input = Ok name
        /\ (p = path_join dir (name +:+ ".json")
            \/ p = path_join dir (name +:+ ".html")))
  /\ (is_Some (files w !! p) ->
      is_Some (files (snd (parse_recipe html lx input dir k m w)) !! p))
  /\ dirs w ⊆ dirs (snd (parse_recipe html lx input dir k m w))
  /\ (forall d, d ∈ dirs (snd (parse_recipe html lx input dir k m w)) ->
        d ∈ dirs w \/ d = path_str dir \/ is_above d (path_str dir)).
Proof.
  intros _.
  destruct (parse_recipe_of_try html lx input dir k m w) as (_ & Hf & Hd & _).
  destruct (parse_recipe_try_front html lx input dir k m w)
    as (w0 & Hf0 & Hd0 & _ & Htry).
  rewrite Hf, Hd, Htry. clear Hf Hd Htry.
  destruct (files w !! path_arg_text input) as [text|];
    [|simpl; rewrite Hf0, Hd0; auto].
  destruct (str_is_empty (py_strip text)); [simpl; rewrite Hf0, Hd0; auto|].
  destruct (fst (extract_recipe lx {| api_key := k; model := m |} text))
    as [recipe|] eqn:Hfound; [|simpl; rewrite Hf0, Hd0; auto].
  destruct (save_outputs_frame recipe text input dir w0 p)
    as (Hfiles & Hdirs & Hkeep).
  rewrite Hf0, Hd0 in *. split; [|split; [exact Hkeep|]].
  - destruct Hfiles as [Hsame | (name & Hname & Hp)]; [left; exact Hsame|].
    right. exists text, recipe, name. auto.
  - destruct Hdirs as [-> | ->]; split; try reflexivity; auto.
    + apply union_subseteq_r.
    + intros d [->%elem_of_singleton | Hd]%elem_of_union; auto.
Qed.

(** X13. An input that cannot be used costs nothing. When the input file
    is missing, or its text has fewer than 100 characters once stripped
    (blank included), [parse_recipe] returns [False], calls no service and
    leaves every file and directory as it was. *)
Theorem parse_recipe_unusable_input (input : path_arg) (dir : Path)
    (k m : string) (w : World) :
  files w !! path_arg_text input = None
  \/ (exists text, files w !! path_arg_text input = Some text
                   /\ String.length (py_strip text) < 100) ->
  fst (parse_recipe html lx input dir k m w) = false
  /\ files (snd (parse_recipe html lx input dir k m w)) = files w
  /\ dirs (snd (parse_recipe html lx input dir k m w)) = dirs w
  /\ calls_of (trace (snd (parse_recipe html lx input dir k m w)))
     = calls_of (trace w).
Proof.
  intros Hinput.
  destruct (parse_recipe_of_try html lx input dir k m w) as (Hb & Hf & Hd & Hc).
  destruct (parse_recipe_try_front html lx input dir k m w)
    as (w0 & Hf0 & Hd0 & Hc0 & Htry).
  rewrite Hb, Hf, Hd, Hc, Htry. clear Hb Hf Hd Hc Htry.
  destruct Hinput as [Hnone | (text & Htext & Hshort)].
  - rewrite Hnone in *. simpl. rewrite Hc0, app_nil_r. auto.
  - rewrite Htext in *.
    destruct (str_is_empty (py_strip text)).
    + simpl. rewrite Hc0, app_nil_r. auto.
    + rewrite extract_recipe_calls_aux in Hc0.
      assert (Hnone : fst (extract_recipe lx {| api_key := k; model := m |} text)
                      = None).
      { unfold extract_recipe. apply Nat.ltb_lt in Hshort. rewrite Hshort.
        reflexivity. }
      rewrite Hnone. apply Nat.ltb_lt in Hshort. rewrite Hshort in Hc0.
      simpl. rewrite Hc0, app_nil_r. auto.
Qed.

(** X14. What a run of [parse_recipe] that returned [True] has done, for
    an input file without carriage return. The input file was there and
    [extract_recipe] returned a recipe for its text; no file stood where
    the output directory goes, the file name could be made from the
    title or the input path, and neither output path was a directory.
    The run has made the output directory, written the recipe to the
    JSON file and the page to the HTML file. *)
Theorem parse_recipe_true_written (input : path_arg) (dir : Path)
    (k m : string) (w : World) :
  (forall text, files w !! path_arg_text input = Some text ->
                no_carriage_return text = true) ->
  fst (parse_recipe html lx input dir k m w) = true ->
  exists text recipe name,
    files w !! path_arg_text input = Some text
    /\ fst (extract_recipe lx {| api_key := k; model := m |} text) = Some recipe
    /\ files w !! path_str dir = None
    /\ output_stem (title recipe) input = Ok name
    /\ (path_join dir (name +:+ ".json") ∉ dirs w)
    /\ (path_join dir (name +:+ ".html") ∉ dirs w)
    /\ path_str dir ∈ dirs (snd (parse_recipe html lx input dir k m w))
    /\ files (snd (parse_recipe html lx input dir k m w))
         !! path_join dir (name +:+ ".json")
       = Some (json_dumps (Recipe_model_dump recipe))
    /\ files (snd (parse_recipe html lx input dir k m w))
         !! path_join dir (name +:+ ".html")
       = Some (html recipe text).
Proof.
  intros _.
  destruct (parse_recipe_of_try html lx input dir k m w) as (Hb & Hf & Hd & _).
  destruct (parse_recipe_try_front html lx input dir k m w)
    as (w0 & Hf0 & Hd0 & _ & Htry).
  rewrite Hb, Hf, Hd, Htry. clear Hb Hf Hd Htry.
  destruct (files w !! path_arg_text input) as [text|]; [|discriminate].
  destruct (str_is_empty (py_strip text)); [discriminate|].
  destruct (fst (extract_recipe lx {| api_key := k; model := m |} text))
    as [recipe|] eqn:Hfound; [|discriminate].
  intros Htrue.
  destruct (fst (save_outputs html recipe text input dir w0))
    as [[]|] eqn:Hsave; try discriminate.
  pose proof (save_outputs_ok_iff recipe text input dir w0) as Hok.
  rewrite Hf0, Hd0 in Hok.
  destruct (proj1 Hok Hsave) as (Hdir & name & Hname & Hj & Hh).
  destruct (save_outputs_true html recipe text input dir w0 Hsave)
    as (name' & Hname' & Hjson & Hhtml).
  rewrite Hname in Hname'. injection Hname' as <-.
  exists text, recipe, name.
  repeat (split; [assumption || reflexivity|]).
  split; [apply save_outputs_true_dir; exact Hsave|].
  split; assumption.
Qed.

(** X15. What a run of [main] sends out: at most one request. A request
    carries the model "gemini-2.5-flash" and the key from the
    environment, which is then set, and is sent only when [recipe.txt]
    is there with at least 100 characters once stripped. For a
    [recipe.txt] without carriage return that holds that many
    characters, and a key that is set, the request is sent and carries
    the whole text of the file. *)
Theorem main_calls (env : option string) (w : World) :
  exists sent,
    calls_of (trace (snd (main html lx env w))) = calls_of (trace w) ++ sent
    /\ length sent <= 1
    /\ (forall r, In r sent ->
          model_id r = "gemini-2.5-flash"
          /\ env = Some (req_api_key r) /\ req_api_key r <> ""
          /\ exists text, files w !! "recipe.txt" = Some text
                          /\ 100 <= String.length (py_strip text))
    /\ (forall key text,
          env = Some key -> key <> "" ->
          files w !! "recipe.txt" = Some text ->
          no_carriage_return text = true ->
          100 <= String.length (py_strip text) ->
          sent = [{| text_or_documents := text; model_id := "gemini-2.5-flash";
                     req_api_key := key |}]).
Proof.
  destruct env as [[|c k]|].
  1, 3: exists []; simpl; rewrite calls_of_app; simpl;
    (split; [reflexivity|]); (split; [lia|]); (split; [intros r []|]);
    intros key text [=]; try subst key; intros; contradiction.
  assert (Hsent :
    calls_of (trace (snd (main html lx (Some (String c k)) w)))
    = calls_of (trace w)
      ++ match files w !! "recipe.txt" with
         | Some text =>
             if (String.length (py_strip text) <? 100)%nat then []
             else [{| text_or_documents := text; model_id := "gemini-2.5-flash";
                      req_api_key := String c k |}]
         | None => []
         end).
  { simpl.
    destruct (parse_recipe_of_try html lx (AsStr "recipe.txt")
                {| path_str := "output"; stem := "output" |} (String c k)
                "gemini-2.5-flash" w) as (_ & _ & _ & Hc).
    destruct (parse_recipe_try_front html lx (AsStr "recipe.txt")
                {| path_str := "output"; stem := "output" |} (String c k)
                "gemini-2.5-flash" w) as (w0 & _ & _ & Hc0 & Htry).
    simpl path_arg_text in *.
    destruct (parse_recipe html lx (AsStr "recipe.txt")
                {| path_str := "output"; stem := "output" |} (String c k)
                "gemini-2.5-flash" w) as [success w'].
    simpl in Hc |- *. rewrite Hc, Htry. clear Hc Htry.
    destruct (files w !! "recipe.txt") as [text|]; [|simpl; exact Hc0].
    rewrite extract_recipe_calls_aux in Hc0.
    destruct (py_strip text) as [|a s] eqn:Hstrip.
    { simpl in *. exact Hc0. }
    simpl str_is_empty in *. cbv iota in *.
    destruct (fst (extract_recipe lx
                     {| api_key := String c k; model := "gemini-2.5-flash" |}
                     text));
      [rewrite save_outputs_no_calls|simpl]; exact Hc0. }
  eexists. split; [exact Hsent|].
  destruct (files w !! "recipe.txt") as [text|].
  2:{ split; [simpl; lia|]. split; [intros r []|]. intros ? ? _ _ [=]. }
  destruct (String.length (py_strip text) <? 100)%nat eqn:Hlen.
  - apply Nat.ltb_lt in Hlen. split; [simpl; lia|]. split; [intros r []|].
    intros key text' _ _ [= <-] _ Hlong. lia.
  - apply Nat.ltb_ge in Hlen. split; [simpl; lia|]. split.
    + intros r [<- | []]. simpl. repeat split; [discriminate|].
      exists text. split; [reflexivity | exact Hlen].
    + intros key text' [= <-] _ [= <-] _ _. reflexivity.
Qed.

(** X16. A file where the output directory should go. When a file
    already has the output directory's name, [parse_recipe] returns
    [False] and leaves every file and directory as it was. *)
Theorem parse_recipe_dir_is_file (input : path_arg) (dir : Path) (k m : string)
    (w : World) (content : string) :
  files w !! path_str dir = Some content ->
  fst (parse_recipe html lx input dir k m w) = false
  /\ files (snd (parse_recipe html lx input dir k m w)) = files w
  /\ dirs (snd (parse_recipe html lx input dir k m w)) = dirs w.
Proof.
  intros Hdir.
  destruct (parse_recipe_of_try html lx input dir k m w) as (Hb & Hf & Hd & _).
  destruct (parse_recipe_try_front html lx input dir k m w)
    as (w0 & Hf0 & Hd0 & _ & Htry).
  rewrite Hb, Hf, Hd, Htry. clear Hb Hf Hd Htry.
  destruct (files w !! path_arg_text input) as [text|]; [|simpl; auto].
  destruct (str_is_empty (py_strip text)); [simpl; auto|].
  destruct (fst (extract_recipe lx {| api_key := k; model := m |} text))
    as [recipe|]; [|simpl; auto].
  destruct w0 as [f D t]. simpl in Hf0, Hd0. subst f D.
  save_unfold. rewrite Hdir. simpl. auto.
Qed.


End MainMore.

(* ===================================================================== *)
(** ** The properties at work on sample answers of the service *)

(** From here on the float type of the examples is the default. *)
#[global] Existing Instance decimal_type.

Ltac by_compute := vm_compute; first [reflexivity | lia].

Lemma sample_text_long : 100 <= String.length (py_strip sample_text).
Proof. by_compute. Defined.

Lemma extract_recipe_first_usable_witness :
  100 <= String.length (py_strip sample_text)
  /\ fst (extract_recipe (service_returning partial_then_complete)
            sample_extractor sample_text) = Some complete_recipe.
Proof.
  split; [exact sample_text_long|].
  apply (proj2 (extract_recipe_first_usable
                  (service_returning partial_then_complete) sample_extractor
                  sample_text partial_then_complete sample_text_long eq_refl)
           (recipe_extraction partial_payload)
           (recipe_extraction complete_payload)
           [("instructions", PList [PStr "Let it cool."])]).
  - reflexivity.
  - by_compute.
  - reflexivity.
  - reflexivity.
  - by_compute.
Defined.

(** C1 as stated fails: the first extraction of class "Recipe" whose
    payload parses and has a non-empty title is the soup, whose
    ingredients are a number; building it raises, and the recipe returned
    is the one of the second extraction. *)
Lemma first_titled_extraction_not_selected :
  spec_choice untyped_then_complete = Some (recipe_extraction untyped_payload)
  /\ parse_extraction (recipe_extraction untyped_payload)
     = Raise (TypeError_not_iterable "int")
  /\ parse_extraction (recipe_extraction complete_payload)
     = Ok (Some complete_recipe)
  /\ fst (extract_recipe (service_returning untyped_then_complete)
            sample_extractor sample_text) = Some complete_recipe.
Proof. repeat split; by_compute. Qed.

Lemma extract_recipe_short_text_witness :
  String.length (py_strip "  Bake it.  ") < 100
  /\ extract_recipe (service_returning partial_then_complete) sample_extractor
       "  Bake it.  "
     = (None, [Log INFO (MsgExtracting 12); Log WARNING MsgTextTooShort]).
Proof.
  assert (Hlen : String.length (py_strip "  Bake it.  ") < 100) by by_compute.
  split; [exact Hlen|].
  exact (proj1 (extract_recipe_short_text
                  (service_returning partial_then_complete) sample_extractor
                  "  Bake it.  " Hlen)).
Defined.

Lemma extract_recipe_service_raises_witness :
  service_raising (OtherException "ConnectionError" "no route")
    (request_of sample_extractor sample_text)
  = Raises (OtherException "ConnectionError" "no route")
  /\ fst (extract_recipe
            (service_raising (OtherException "ConnectionError" "no route"))
            sample_extractor sample_text) = None.
Proof.
  split; [reflexivity|].
  exact (proj1 (extract_recipe_service_raises
                  (service_raising (OtherException "ConnectionError" "no route"))
                  sample_extractor sample_text
                  (OtherException "ConnectionError" "no route") eq_refl)).
Defined.

Lemma complete_recipe_extracted :
  fst (extract_recipe (service_returning partial_then_complete)
         sample_extractor sample_text) = Some complete_recipe.
Proof. by_compute. Defined.

Lemma extract_recipe_title_nonempty_witness :
  fst (extract_recipe (service_returning partial_then_complete)
         sample_extractor sample_text) = Some complete_recipe
  /\ title complete_recipe <> "".
Proof.
  split; [exact complete_recipe_extracted|].
  exact (proj1 (extract_recipe_title_nonempty
                  (service_returning partial_then_complete) sample_extractor
                  sample_text complete_recipe complete_recipe_extracted)).
Defined.

Lemma toast_extracted :
  fst (extract_recipe (service_returning title_only) sample_extractor
         sample_text) = Some toast.
Proof. by_compute. Defined.

Lemma extract_recipe_defaults_witness :
  fst (extract_recipe (service_returning title_only) sample_extractor
         sample_text) = Some toast
  /\ description toast = "" /\ prep_time toast = "" /\ cook_time toast = ""
  /\ servings toast = "" /\ ingredients toast = [] /\ instructions toast = [].
Proof.
  split; [exact toast_extracted|].
  destruct (proj2 (extract_recipe_defaults (service_returning title_only)
                     sample_extractor sample_text toast toast_extracted)
              [("title", PStr "Toast")] eq_refl)
    as (_ & Hd & Hp & Hc & Hs & Hi & Hn).
  split; [exact (Hd eq_refl)|]. split; [exact (Hp eq_refl)|].
  split; [exact (Hc eq_refl)|]. split; [exact (Hs eq_refl)|].
  split; [exact (Hi eq_refl) | exact (Hn eq_refl)].
Defined.

Lemma complete_payload_holds :
  holds_recipe
    [("title", PStr "Apple Pie"); ("description", PStr "A classic.");
     ("prep_time", PStr "20 minutes"); ("cook_time", PStr "45 minutes");
     ("servings", PStr "8");
     ("ingredients",
      PList [PDict [("name", PStr "flour");
                    ("quantity", PFloat {| df_mantissa := 225; df_places := 2 |});
                    ("unit", PStr "cups")];
             PDict [("name", PStr "salt");
                    ("quantity", PFloat {| df_mantissa := 1; df_places := 0 |});
                    ("unit", PStr "tsp")]]);
     ("instructions", PList [PStr "Mix the dough."; PStr "Bake."])]
    complete_recipe.
Proof.
  unfold holds_recipe.
  split; [discriminate|]. do 5 (split; [reflexivity|]).
  split; [|reflexivity].
  eexists. split; [reflexivity|].
  constructor; [|constructor; [|constructor]];
    (do 3 eexists; split; [reflexivity|]; split; [reflexivity|];
     split; [eexists; split; [reflexivity | left; reflexivity]|];
     repeat split; reflexivity).
Defined.

Lemma extract_recipe_round_trip_witness :
  100 <= String.length (py_strip sample_text)
  /\ json_loads (extraction_text (recipe_extraction complete_payload))
     = Ok (Recipe_model_dump complete_recipe)
  /\ fst (extract_recipe
            (service_returning [recipe_extraction complete_payload])
            sample_extractor sample_text) = Some complete_recipe.
Proof.
  assert (Hloads : json_loads (extraction_text (recipe_extraction complete_payload))
                   = Ok (Recipe_model_dump complete_recipe)) by by_compute.
  split; [exact sample_text_long|]. split; [exact Hloads|].
  exact (extract_recipe_round_trip
           (service_returning [recipe_extraction complete_payload])
           sample_extractor sample_text (recipe_extraction complete_payload)
           _ complete_recipe sample_text_long eq_refl eq_refl Hloads
           complete_payload_holds).
Defined.

(** An ingredient object with a name and nothing else. *)
Lemma ingredient_missing_keys_witness :
  validate_str (field "name" (PStr "") [("name", PStr "salt")]) = Some "salt"
  /\ ingredient_of_item (PDict [("name", PStr "salt")])
     = Ok {| ing_name := "salt"; ing_quantity := @None decimal_float;
             ing_unit := None |}.
Proof.
  split; [reflexivity|].
  exact (proj1 (ingredient_missing_keys (F := decimal_type)
                  [("name", PStr "salt")] "salt" eq_refl) eq_refl None eq_refl).
Defined.

(** C6 as stated fails: this ingredient object lacks both keys, yet no
    [Ingredient] is built from it; the constructor refuses the name, and
    the run ends without a recipe. *)
Lemma ingredient_without_keys_refused :
  dict_lookup "quantity" [("name", @PNone decimal_type)] = None
  /\ dict_lookup "unit" [("name", @PNone decimal_type)] = None
  /\ json_loads (extraction_text (recipe_extraction unnamed_ingredient_payload))
     = Ok (PDict [("title", PStr "Soup");
                  ("ingredients", PList [PDict [("name", PNone)]])])
  /\ ingredient_of_item (PDict [("name", @PNone decimal_type)])
     = Raise (ValidationError "Ingredient" ["name"])
  /\ fst (extract_recipe
            (service_returning [recipe_extraction unnamed_ingredient_payload])
            sample_extractor sample_text) = None.
Proof. repeat split; by_compute. Qed.

(** C3 as stated fails on a title that ends with a space: the code drops
    the space, the specification's words turn it into an underscore. *)
Lemma trailing_space_dropped :
  safe_title "Apple Pie " = "apple_pie"
  /\ spec_slug "Apple Pie " = "apple_pie_".
Proof. split; by_compute. Qed.

(** [main] passes the input file as a [str]: with a title that leaves no
    character, line 71 raises instead of falling back. *)
Lemma stem_of_str_raises :
  output_stem "!!!" (AsStr "recipe.txt") = Raise (AttributeError "str" "stem")
  /\ output_stem "!!!" (AsPath {| path_str := "recipe.txt"; stem := "recipe" |})
     = Ok "recipe".
Proof. split; by_compute. Qed.



(** A whole run of [main] on the sample: exit code 0, the directory made,
    and the JSON file under the name made from the title. *)
Lemma main_sample_run :
  fst (main sample_page sample_service (Some "key") sample_world) = 0%Z
  /\ files (snd (main sample_page sample_service (Some "key") sample_world))
       !! "output/apple_pie.json"
     = Some (json_dumps (Recipe_model_dump complete_recipe))
  /\ elements (dirs (snd (main sample_page sample_service (Some "key")
                            sample_world))) = ["output"].
Proof. repeat split; by_compute. Qed.

(** With a title that leaves no character for the file name, the same run
    ends in exit code 1: the input file reached [parse_recipe] as a [str]. *)
Lemma main_empty_slug_run :
  fst (main sample_page (service_returning [recipe_extraction "{'title': '!!!'}"])
         (Some "key") sample_world) = 1%Z.
Proof. by_compute. Qed.

(** The same happens to an ingredient without a unit whose quantity is
    words: the float check refuses it and the recipe is lost. *)
Lemma pinch_of_salt_refused :
  ingredient_of_item
    (PDict [("name", PStr "salt"); ("quantity", @PStr decimal_type "a pinch")])
  = Raise (ValidationError "Ingredient" ["quantity"])
  /\ fst (extract_recipe
            (service_returning
               [recipe_extraction
                  "{'title': 'Soup', 'ingredients': [{'name': 'salt', 'quantity': 'a pinch'}]}"])
            sample_extractor sample_text) = @None (@Recipe decimal_type).
Proof. split; by_compute. Qed.

Lemma extract_recipe_nothing_returned_witness :
  100 <= String.length (py_strip sample_text)
  /\ extract_recipe (fun _ => Returns (ResultDocument None)) sample_extractor
       sample_text
     = (@None (@Recipe decimal_type),
        [Log INFO (MsgExtracting (String.length sample_text));
         Call (request_of sample_extractor sample_text);
         Log WARNING MsgNoExtractions]).
Proof.
  split; [exact sample_text_long|].
  apply (extract_recipe_nothing_returned
           (fun _ => Returns (ResultDocument None)) sample_extractor sample_text
           (ResultDocument None) sample_text_long eq_refl).
  right. right. left. reflexivity.
Defined.

Lemma null_field_refused_witness :
  json_loads (extraction_text
                (recipe_extraction "{'title': 'Soup', 'description': null}"))
  = Ok (PDict [("title", PStr "Soup"); ("description", @PNone decimal_type)])
  /\ skipped (recipe_extraction "{'title': 'Soup', 'description': null}").
Proof.
  assert (Hloads : json_loads
                     (extraction_text
                        (recipe_extraction "{'title': 'Soup', 'description': null}"))
                   = Ok (PDict [("title", PStr "Soup");
                                ("description", @PNone decimal_type)]))
    by by_compute.
  split; [exact Hloads|].
  apply (null_field_refused
           (recipe_extraction "{'title': 'Soup', 'description': null}")
           [("title", PStr "Soup"); ("description", PNone)] "description").
  - left. reflexivity.
  - exact Hloads.
  - reflexivity.
Defined.

Lemma ingredient_field_origin_witness :
  ingredient_of_item (PDict [("name", PStr "salt"); ("quantity", @PNone decimal_type)])
  = Ok {| ing_name := "salt"; ing_quantity := None; ing_unit := None |}
  /\ absent_or_null "quantity" [("name", PStr "salt"); ("quantity", @PNone decimal_type)]
  /\ absent_or_null "unit" [("name", PStr "salt"); ("quantity", @PNone decimal_type)].
Proof.
  split; [reflexivity|].
  destruct (ingredient_field_origin
              [("name", PStr "salt"); ("quantity", @PNone decimal_type)]
              {| ing_name := "salt"; ing_quantity := None; ing_unit := None |}
              eq_refl) as (Hq & Hu & _).
  split; [apply Hq | apply Hu]; reflexivity.
Defined.

Lemma recipe_of_data_reads_seven_keys_witness :
  same_on recipe_keys [("title", PStr "Toast")]
    [("title", PStr "Toast"); ("notes", @PStr decimal_type "Serve warm.")]
  /\ recipe_of_data
       (PDict [("title", PStr "Toast"); ("notes", @PStr decimal_type "Serve warm.")])
     = Ok (Some toast).
Proof.
  assert (Hsame : same_on recipe_keys [("title", PStr "Toast")]
                    [("title", PStr "Toast");
                     ("notes", @PStr decimal_type "Serve warm.")]).
  { intros key Hkey. simpl in Hkey.
    destruct Hkey as [<- | [<- | [<- | [<- | [<- | [<- | [<- | []]]]]]]];
      reflexivity. }
  split; [exact Hsame|].
  rewrite <- (recipe_of_data_reads_seven_keys _ _ Hsame). reflexivity.
Defined.



Lemma parse_recipe_unusable_input_witness :
  files sample_world !! "missing.txt" = None
  /\ fst (parse_recipe sample_page sample_service (AsStr "missing.txt")
            {| path_str := "output"; stem := "output" |} "key"
            "gemini-2.5-flash" sample_world) = false.
Proof.
  assert (Hnone : files sample_world !! "missing.txt" = None) by by_compute.
  split; [exact Hnone|].
  exact (proj1 (parse_recipe_unusable_input sample_page sample_service
                  (AsStr "missing.txt")
                  {| path_str := "output"; stem := "output" |} "key"
                  "gemini-2.5-flash" sample_world (or_introl Hnone))).
Defined.

Lemma parse_recipe_dir_is_file_witness :
  files world_with_output_file !! "output" = Some "not a directory"
  /\ fst (parse_recipe sample_page sample_service (AsStr "recipe.txt")
            {| path_str := "output"; stem := "output" |} "key"
            "gemini-2.5-flash" world_with_output_file) = false.
Proof.
  assert (Hfile : files world_with_output_file !! "output"
                  = Some "not a directory") by by_compute.
  split; [exact Hfile|].
  exact (proj1 (parse_recipe_dir_is_file sample_page sample_service
                  (AsStr "recipe.txt")
                  {| path_str := "output"; stem := "output" |} "key"
                  "gemini-2.5-flash" world_with_output_file
                  "not a directory" Hfile)).
Defined.

Lemma complete_recipe_requested :
  fst (extract_recipe sample_service
         {| api_key := "key"; model := "gemini-2.5-flash" |} sample_text)
  = Some complete_recipe.
Proof. by_compute. Defined.


(** The amended file name at work: a title with punctuation, capitals and
    a trailing space, and a title that leaves no character, for which the
    outputs are named after the input path. *)
Lemma safe_title_spec_witness :
  safe_title "Mom's Apple-Pie (v2) " = "moms_apple-pie_v2"
  /\ spec_slug "Mom's Apple-Pie (v2) " = "moms_apple-pie_v2_"
  /\ output_stem "!!!" (AsPath {| path_str := "recipe.txt"; stem := "recipe" |})
     = Ok "recipe"
  /\ files (snd (save_outputs sample_page punctuation_recipe sample_text
                   (AsPath {| path_str := "recipe.txt"; stem := "recipe" |})
                   {| path_str := "output"; stem := "output" |} sample_world))
       !! "output/recipe.json"
     = Some (json_dumps (Recipe_model_dump punctuation_recipe)).
Proof.
  destruct (safe_title_spec sample_page "Mom's Apple-Pie (v2) ")
    as (Hname & Hspec & _).
  destruct (safe_title_spec sample_page "!!!") as (_ & _ & _ & Hstem & Hsaved).
  split; [rewrite Hname; by_compute|].
  split; [rewrite Hspec; by_compute|].
  split; [apply Hstem; by_compute|].
  apply (Hsaved punctuation_recipe sample_text
           {| path_str := "recipe.txt"; stem := "recipe" |}
           {| path_str := "output"; stem := "output" |} sample_world);
    by_compute.
Defined.

(** The sample input holds no carriage return. *)
Lemma sample_input_plain (text : string) :
  files sample_world !! "recipe.txt" = Some text ->
  no_carriage_return text = true.
Proof.
  assert (Hfile : files sample_world !! "recipe.txt" = Some sample_text)
    by by_compute.
  rewrite Hfile. intros [= <-]. by_compute.
Defined.

Lemma parse_recipe_frame_witness :
  no_carriage_return sample_text = true
  /\ is_Some (files (snd (sample_run sample_world)) !! "recipe.txt")
  /\ dirs sample_world ⊆ dirs (snd (sample_run sample_world)).
Proof.
  split; [by_compute|].
  destruct (parse_recipe_frame sample_page sample_service
              (AsPath {| path_str := "recipe.txt"; stem := "recipe" |})
              {| path_str := "output"; stem := "output" |} "key"
              "gemini-2.5-flash" sample_world "recipe.txt" sample_input_plain)
    as (_ & Hkeep & Hdirs & _).
  split; [|exact Hdirs].
  apply Hkeep. exists sample_text. by_compute.
Defined.

Lemma sample_run_true : fst (sample_run sample_world) = true.
Proof. by_compute. Defined.

Lemma parse_recipe_true_written_witness :
  no_carriage_return sample_text = true
  /\ fst (sample_run sample_world) = true
  /\ exists name,
       output_stem (title complete_recipe)
         (AsPath {| path_str := "recipe.txt"; stem := "recipe" |}) = Ok name
       /\ files (snd (sample_run sample_world))
            !! path_join {| path_str := "output"; stem := "output" |}
                 (name +:+ ".json")
          = Some (json_dumps (Recipe_model_dump complete_recipe)).
Proof.
  split; [by_compute|]. split; [exact sample_run_true|].
  destruct (parse_recipe_true_written sample_page sample_service
              (AsPath {| path_str := "recipe.txt"; stem := "recipe" |})
              {| path_str := "output"; stem := "output" |} "key"
              "gemini-2.5-flash" sample_world sample_input_plain
              sample_run_true)
    as (text & recipe & name & Hfile & Hfound & _ & Hname & _ & _ & _ & Hjson & _).
  assert (Htext : files sample_world !! "recipe.txt" = Some sample_text)
    by by_compute.
  simpl path_arg_text in Hfile. rewrite Htext in Hfile.
  injection Hfile as <-.
  rewrite complete_recipe_requested in Hfound. injection Hfound as <-.
  exists name. split; [exact Hname | exact Hjson].
Defined.

Lemma main_calls_witness :
  exists sent,
    calls_of (trace (snd (main sample_page sample_service (Some "key")
                            sample_world)))
    = calls_of (trace sample_world) ++ sent
    /\ sent = [{| text_or_documents := sample_text;
                  model_id := "gemini-2.5-flash"; req_api_key := "key" |}].
Proof.
  destruct (main_calls sample_page sample_service (Some "key") sample_world)
    as (sent & Hcalls & _ & _ & Hsent).
  exists sent. split; [exact Hcalls|].
  apply (Hsent "key" sample_text eq_refl); try by_compute.
  discriminate.
Defined.
